(** * dellve_benchend: the cuDNN convolution benchmark driver

    A shallow embedding of [src/plugins/dellvednn/include/cudnn_conv_driver.hpp]
    (class [CudnnConvDriver]) together with the properties its specification
    states about it.

    The driver talks to a device, a clock, a convolution engine and a tensor
    factory.  Their calls are recorded, in program order, in a trace kept in
    an explicit [World]; the driver object itself is a record that the member
    functions read and update.  Arithmetic on [double] is the IEEE-754
    binary64 arithmetic of the standard library's [SpecFloat]. *)

From Stdlib Require Import ZArith List Lia Bool PeanoNat.
From Stdlib Require Import SpecFloat.
Import ListNotations.

Local Open Scope Z_scope.

(** ** C++ [double]: IEEE-754 binary64 *)

Module Double.

Definition prec : Z := 53.
Definition emax : Z := 1024.

(** Integer-to-double conversion: the integer rounded to nearest-even. *)
Definition of_Z (z : Z) : spec_float := binary_normalize prec emax z 0 false.

Definition div (x y : spec_float) : spec_float := SFdiv prec emax x y.

Definition is_zero (x : spec_float) : bool :=
  match x with
  | S754_zero _ => true
  | _ => false
  end.

(** The value with its fractional part discarded (rounding toward zero);
    infinities and NaN have no integer part. *)
Definition trunc (x : spec_float) : option Z :=
  match x with
  | S754_zero _ => Some 0
  | S754_finite s m e => Some (cond_Zopp s (Z.shiftl (Zpos m) e))
  | S754_infinity _ => None
  | S754_nan => None
  end.

(** The sign bit, when there is one. *)
Definition sign (x : spec_float) : option bool :=
  match x with
  | S754_zero s => Some s
  | S754_infinity s => Some s
  | S754_finite s _ _ => Some s
  | S754_nan => None
  end.

(** Strictly positive: a positive finite number or plus infinity. *)
Definition positive (x : spec_float) : bool :=
  match x with
  | S754_finite false _ _ => true
  | S754_infinity false => true
  | _ => false
  end.

End Double.

(** ** Outcomes of a member-function call

    A call either returns a value or does not: it throws (the catalog's
    [IndexError]) or runs into behaviour the language leaves undefined. *)

Inductive Fault : Type :=
| IndexError            (* thrown by [CudnnConvProblemSet::get] *)
| UB_vector_subscript   (* [std::vector::operator[]] past the end *)
| UB_signed_overflow    (* overflow of a signed integer subtraction *)
| UB_indeterminate_value (* an uninitialised member is read *)
| UB_float_to_int.      (* [double] to [int]: no [int] holds the truncated value *)

Inductive Outcome (A : Type) : Type :=
| Ok (a : A)
| Raise (f : Fault).

Arguments Ok {A} a.
Arguments Raise {A} f.

(** ** Data model *)

(** [enum class CudnnConvMethod { FORWARD, BACKWARD_DATA, BACKWARD_FILTER }]:
    a scoped enumeration whose underlying type is [int]; every [int] is a
    value of the type, three of them are named. *)
Definition CudnnConvMethod : Type := Z.
Definition FORWARD : CudnnConvMethod := 0.
Definition BACKWARD_DATA : CudnnConvMethod := 1.
Definition BACKWARD_FILTER : CudnnConvMethod := 2.

(** The eleven-integer tuple a catalog entry consists of, in the order in
    which [createCudnnConv] unpacks it:
    [(w, h, c, n, k, r, s, pad_w, pad_h, wstride, hstride)]. *)
Definition ConvProblem : Type := (Z * Z * Z * Z * Z * Z * Z * Z * Z * Z * Z)%type.

Definition CudnnConvProblemSet : Type := list ConvProblem.

(** Modelled from the spec: [CudnnConvProblemSet::get] lives in
    [cudnn_problem_set.hpp], which is not part of the sources.  The
    specification gives it as [get(index) -> ProblemShape | IndexError]: the
    entry at a zero-based index of an ordered collection, an [IndexError]
    outside the valid range. *)
Definition ProblemSet_get (ps : CudnnConvProblemSet) (i : Z) : Outcome ConvProblem :=
  if (0 <=? i) && (i <? Z.of_nat (length ps)) then
    match nth_error ps (Z.to_nat i) with
    | Some p => Ok p
    | None => Raise IndexError
    end
  else Raise IndexError.

(** [curandGenerator_t]: a handle that either designates a generator the
    library created or was never written. *)
Inductive curandGenerator_t : Type :=
| gen_indeterminate
| gen_handle (id : nat).

Inductive Fill : Type :=
| FillZeros
| FillRandom (g : curandGenerator_t) (draw : nat).

(** Modelled from the spec: the tensor type of [tensor.hpp], which is not
    part of the sources.  The specification describes a tensor as an opaque
    device buffer identified by its shape, created either zero-filled or
    filled from the seeded random context, whose position advances with every
    fill. *)
Record Tensor : Type := mkTensor {
  t_dims : list Z;
  t_fill : Fill
}.

(** Modelled from the spec: the engine class of [cudnn_conv.hpp], which is
    not part of the sources.  The specification has it constructible from a
    shape and a device; an object is kept as its identity and the twelve
    constructor arguments. *)
Record CudnnConv : Type := mkCudnnConv {
  conv_id : nat;
  conv_shape : ConvProblem;
  conv_device : Z
}.

(** The part of [cudnn_conv.hpp] the driver reads a value from: the output
    shape an engine reports.  The header is not part of the sources, so the
    function is a parameter of the development. *)
Class ConvEngine : Type := {
  get_output_dims : CudnnConv -> list Z
}.

Inductive ConvOp : Type := OpForward | OpBackwardData | OpBackwardFilter.

(** Calls that leave the driver, in the order in which they are made.
    Calls into the engine and the tensor factory are taken to return; what
    their destructors do at the end of a scope belongs to the absent headers
    and is not recorded. *)
Inductive Event : Type :=
| EvCudaFree (status : Z)                       (* cudaFree(0) *)
| EvCurandCreate (status : Z)                   (* curandCreateGenerator *)
| EvCurandSeed (g : curandGenerator_t) (seed : Z)
| EvConvCreate (conv : CudnnConv)               (* CudnnConv(...) *)
| EvConvInit (id : nat) (op : ConvOp)           (* conv.initForward() ... *)
| EvOutputDims (id : nat)                       (* conv.get_output_dims() *)
| EvTensorCreate (t : Tensor)                   (* TensorCreate::rand / zeros *)
| EvSubmit (id : nat) (op : ConvOp) (a b c : Tensor) (* conv.forward(...) ... *)
| EvDeviceSynchronize                           (* cudaDeviceSynchronize() *)
| EvClockNow (t : Z).                           (* steady_clock::now() *)

(** Everything outside the driver object.  [clock k] is the reading, in
    nanoseconds, that the [k]-th call of [steady_clock::now()] returns; the
    two status fields are what the CUDA runtime and cuRAND answer. *)
Record World : Type := mkWorld {
  trace : list Event;
  clock : nat -> Z;
  clock_reads : nat;
  conv_count : nat;
  gen_count : nat;
  rng_draws : nat;
  cudaFree_status : Z;
  curandCreate_status : Z
}.

(** [class CudnnConvDriver], member for member. *)
Record CudnnConvDriver : Type := mkDriver {
  num_repeats_ : Z;
  curand_gen_ : curandGenerator_t;
  method_ : CudnnConvMethod;
  problems_ : CudnnConvProblemSet;
  k_ : Z; c_ : Z; r_ : Z; s_ : Z;
  n_ : Z; w_ : Z; h_ : Z;
  pad_w_ : Z; pad_h_ : Z;
  wstride_ : Z; hstride_ : Z;
  gpus_ : list Z
}.

Record State : Type := mkState {
  this : CudnnConvDriver;
  world : World
}.

(** ** The monad of member functions: state and faults *)

Definition M (A : Type) : Type := State -> Outcome A * State.

Definition ret {A : Type} (a : A) : M A := fun st => (Ok a, st).

Definition bind {A B : Type} (c : M A) (k : A -> M B) : M B :=
  fun st =>
    match c st with
    | (Ok a, st') => k a st'
    | (Raise f, st') => (Raise f, st')
    end.

Definition of_outcome {A : Type} (o : Outcome A) : M A := fun st => (o, st).

Declare Scope monad_scope.
Delimit Scope monad_scope with monad.
Notation "x <- c ;; k" := (bind c (fun x => k))
  (at level 61, c at next level, right associativity) : monad_scope.
Notation "c ;; k" := (bind c (fun _ => k))
  (at level 61, right associativity) : monad_scope.
Local Open Scope monad_scope.

Definition self : M CudnnConvDriver := fun st => (Ok (this st), st).

Definition log (e : Event) (w : World) : World :=
  mkWorld (trace w ++ [e]) (clock w) (clock_reads w) (conv_count w)
          (gen_count w) (rng_draws w) (cudaFree_status w) (curandCreate_status w).

Definition emit (e : Event) : M unit :=
  fun st => (Ok tt, mkState (this st) (log e (world st))).

(** [for (int i = 0; i < n; ++i) body]: [Z.to_nat n] rounds, none when
    [n <= 0]. *)
Fixpoint for_range (rounds : nat) (i : Z) (body : Z -> M unit) : M unit :=
  match rounds with
  | O => ret tt
  | S rounds' => body i ;; for_range rounds' (i + 1) body
  end.

Definition for_int_lt (n : Z) (body : Z -> M unit) : M unit :=
  for_range (Z.to_nat n) 0 body.

(** ** What the driver calls *)

Definition cudaSuccess : Z := 0.
Definition CURAND_STATUS_SUCCESS : Z := 0.

Definition cudaFree_0 : M Z :=
  fun st =>
    let w := world st in
    (Ok (cudaFree_status w), mkState (this st) (log (EvCudaFree (cudaFree_status w)) w)).

(** [curandCreateGenerator(&g, CURAND_RNG_PSEUDO_DEFAULT)]: returns the
    status together with the contents of [g] afterwards, which is a fresh
    handle on success and the old contents otherwise. *)
Definition curandCreateGenerator (g : curandGenerator_t) : M (Z * curandGenerator_t) :=
  fun st =>
    let w := world st in
    let status := curandCreate_status w in
    if status =? CURAND_STATUS_SUCCESS then
      (Ok (status, gen_handle (gen_count w)),
       mkState (this st)
         (mkWorld (trace w ++ [EvCurandCreate status]) (clock w) (clock_reads w)
                  (conv_count w) (S (gen_count w)) (rng_draws w)
                  (cudaFree_status w) (curandCreate_status w)))
    else
      (Ok (status, g), mkState (this st) (log (EvCurandCreate status) w)).

(** Reading a member of type [curandGenerator_t]: defined only when the
    member has been written. *)
Definition read_generator (g : curandGenerator_t) : M nat :=
  match g with
  | gen_handle id => ret id
  | gen_indeterminate => of_outcome (Raise UB_indeterminate_value)
  end.

(** [curandSetPseudoRandomGeneratorSeed(g, seed)] on a generator the library
    created. *)
Definition curandSetPseudoRandomGeneratorSeed (id : nat) (seed : Z) : M Z :=
  emit (EvCurandSeed (gen_handle id) seed) ;;
  ret CURAND_STATUS_SUCCESS.

Definition cudaDeviceSynchronize : M unit := emit EvDeviceSynchronize.

Definition steady_clock_now : M Z :=
  fun st =>
    let w := world st in
    let t := clock w (clock_reads w) in
    (Ok t,
     mkState (this st)
       (mkWorld (trace w ++ [EvClockNow t]) (clock w) (S (clock_reads w))
                (conv_count w) (gen_count w) (rng_draws w)
                (cudaFree_status w) (curandCreate_status w))).

(** Modelled from the spec: [TensorCreate::rand(dims, gen)] and
    [TensorCreate::zeros(dims)] of the absent [tensor.hpp], the
    specification's [randomFill(shape, randomContext)] and [zeros(shape)].
    Each call is recorded with the tensor it produces. *)
Definition TensorCreate_rand (dims : list Z) (g : curandGenerator_t) : M Tensor :=
  fun st =>
    let w := world st in
    let t := mkTensor dims (FillRandom g (rng_draws w)) in
    (Ok t,
     mkState (this st)
       (mkWorld (trace w ++ [EvTensorCreate t]) (clock w) (clock_reads w)
                (conv_count w) (gen_count w) (S (rng_draws w))
                (cudaFree_status w) (curandCreate_status w))).

(** Modelled from the spec: [TensorCreate::zeros(dims)], see above. *)
Definition TensorCreate_zeros (dims : list Z) : M Tensor :=
  let t := mkTensor dims FillZeros in
  emit (EvTensorCreate t) ;; ret t.

(** Modelled from the spec: the members of the absent [CudnnConv] that the
    driver calls.  Construction, plan initialisation and the three operations
    are recorded calls; what they compute on the device is outside the
    driver. *)
Definition CudnnConv_new (w h c n k r s pad_w pad_h wstride hstride device : Z)
  : M CudnnConv :=
  fun st =>
    let wd := world st in
    let conv := mkCudnnConv (conv_count wd)
                  (w, h, c, n, k, r, s, pad_w, pad_h, wstride, hstride) device in
    (Ok conv,
     mkState (this st)
       (mkWorld (trace wd ++ [EvConvCreate conv]) (clock wd) (clock_reads wd)
                (S (conv_count wd)) (gen_count wd) (rng_draws wd)
                (cudaFree_status wd) (curandCreate_status wd))).

(** Modelled from the spec: [conv.initForward()], [conv.initBackwardData()]
    and [conv.initBackwardFilter()], the plan preparation of the absent
    engine. *)
Definition conv_init (op : ConvOp) (conv : CudnnConv) : M unit :=
  emit (EvConvInit (conv_id conv) op).

(** Modelled from the spec: [conv.forward(input, filter, output)],
    [conv.backwardData(filter, delta, dX)] and
    [conv.backwardFilter(input, delta, dW)] of the absent engine. *)
Definition conv_submit (op : ConvOp) (conv : CudnnConv) (a b c : Tensor) : M unit :=
  emit (EvSubmit (conv_id conv) op a b c).

(** [conv.get_output_dims()]: the call is recorded, the answer is the
    engine's. *)
Definition conv_get_output_dims `{ConvEngine} (conv : CudnnConv) : M (list Z) :=
  emit (EvOutputDims (conv_id conv)) ;; ret (get_output_dims conv).

(** [v[i]] on a [std::vector<int>]. *)
Definition vector_subscript (v : list Z) (i : nat) : M Z :=
  match nth_error v i with
  | Some x => ret x
  | None => of_outcome (Raise UB_vector_subscript)
  end.

(** ** Arithmetic of the reduction *)

Definition INT_MIN : Z := - 2 ^ 31.
Definition INT_MAX : Z := 2 ^ 31 - 1.
Definition INT64_MIN : Z := - 2 ^ 63.
Definition INT64_MAX : Z := 2 ^ 63 - 1.

(** [end - start] on two [steady_clock::time_point]s: a subtraction of
    64-bit nanosecond counts. *)
Definition time_point_diff (end_ start : Z) : Outcome Z :=
  let d := end_ - start in
  if (INT64_MIN <=? d) && (d <=? INT64_MAX) then Ok d else Raise UB_signed_overflow.

(** [std::chrono::duration<double, std::micro>(d).count()] for [d] in
    nanoseconds: the count converted to [double] and divided by [1000.0]. *)
Definition duration_micros (ns : Z) : spec_float :=
  Double.div (Double.of_Z ns) (Double.of_Z 1000).

(** [x / n] with [n] an [int], converted to [double] first.  The division
    is the IEEE-754 one: a zero divisor yields an infinity or NaN, it does not
    trap. *)
Definition div_by_int (x : spec_float) (n : Z) : spec_float :=
  Double.div x (Double.of_Z n).

(** [static_cast<int>(x)]. *)
Definition static_cast_int (x : spec_float) : Outcome Z :=
  match Double.trunc x with
  | Some z => if (INT_MIN <=? z) && (z <=? INT_MAX) then Ok z else Raise UB_float_to_int
  | None => Raise UB_float_to_int
  end.

Definition bind_outcome {A B : Type} (o : Outcome A) (k : A -> Outcome B) : Outcome B :=
  match o with
  | Ok a => k a
  | Raise f => Raise f
  end.

(** [static_cast<int>(duration<double, micro>(end - start).count() / n)]. *)
Definition average_micros (start end_ n : Z) : Outcome Z :=
  bind_outcome (time_point_diff end_ start) (fun d =>
  static_cast_int (div_by_int (duration_micros d) n)).

(** ** [CudnnConvDriver]: constructor and member functions *)

Definition with_curand_gen (d : CudnnConvDriver) (g : curandGenerator_t)
  : CudnnConvDriver :=
  mkDriver (num_repeats_ d) g (method_ d) (problems_ d)
           (k_ d) (c_ d) (r_ d) (s_ d) (n_ d) (w_ d) (h_ d)
           (pad_w_ d) (pad_h_ d) (wstride_ d) (hstride_ d) (gpus_ d).

Definition set_curand_gen (g : curandGenerator_t) : M unit :=
  fun st => (Ok tt, mkState (with_curand_gen (this st) g) (world st)).

(** The driver with its eleven shape members overwritten by a catalog entry. *)
Definition with_shape (d : CudnnConvDriver) (p : ConvProblem) : CudnnConvDriver :=
  let '(w, h, c, n, k, r, s, pad_w, pad_h, wstride, hstride) := p in
  mkDriver (num_repeats_ d) (curand_gen_ d) (method_ d) (problems_ d)
           k c r s n w h pad_w pad_h wstride hstride (gpus_ d).

(** [std::tie(w_, h_, c_, n_, k_, r_, s_, pad_w_, pad_h_, wstride_, hstride_) = p]. *)
Definition tie_assign (p : ConvProblem) : M unit :=
  fun st => (Ok tt, mkState (with_shape (this st) p) (world st)).

(** The constructor body; the status each call returns is dropped, as in the
    source.  The seed call reads [curand_gen_], which has a value only if
    [curandCreateGenerator] wrote it. *)
Definition CudnnConvDriver_body : M unit :=
  _ <- cudaFree_0 ;;
  d <- self ;;
  created <- curandCreateGenerator (curand_gen_ d) ;;
  set_curand_gen (snd created) ;;
  d <- self ;;
  id <- read_generator (curand_gen_ d) ;;
  _ <- curandSetPseudoRandomGeneratorSeed id 42 ;;
  ret tt.

(** [CudnnConvDriver(method, problems, numRuns, gpus)].  The member
    initialisers set four members; the generator handle and the eleven shape
    members are not initialised and start with whatever [mem] the storage
    held. *)
Definition new_CudnnConvDriver (method : CudnnConvMethod) (problems : CudnnConvProblemSet)
    (numRuns : Z) (gpus : list Z) (mem : ConvProblem) (w0 : World)
  : Outcome CudnnConvDriver * World :=
  let '(w, h, c, n, k, r, s, pad_w, pad_h, wstride, hstride) := mem in
  let d0 := mkDriver numRuns gen_indeterminate method problems
              k c r s n w h pad_w pad_h wstride hstride gpus in
  match CudnnConvDriver_body (mkState d0 w0) with
  | (Ok _, st) => (Ok (this st), world st)
  | (Raise f, st) => (Raise f, world st)
  end.

Section Driver.

Context `{ConvEngine}.

Definition createCudnnConv (problemNumber deviceNumber : Z) : M CudnnConv :=
  d <- self ;;
  p <- of_outcome (ProblemSet_get (problems_ d) problemNumber) ;;
  tie_assign p ;;
  d <- self ;;
  CudnnConv_new (w_ d) (h_ d) (c_ d) (n_ d) (k_ d) (r_ d) (s_ d)
                (pad_w_ d) (pad_h_ d) (wstride_ d) (hstride_ d) deviceNumber.

Definition forward (conv : CudnnConv) : M Z :=
  d <- self ;;
  filter <- TensorCreate_rand [r_ d; s_ d; c_ d; k_ d] (curand_gen_ d) ;;
  input <- TensorCreate_rand [w_ d; h_ d; c_ d; n_ d] (curand_gen_ d) ;;
  dims <- conv_get_output_dims conv ;;
  output <- TensorCreate_zeros dims ;;
  conv_submit OpForward conv input filter output ;;
  cudaDeviceSynchronize ;;
  start <- steady_clock_now ;;
  for_int_lt (num_repeats_ d)
    (fun _ => conv_submit OpForward conv input filter output) ;;
  cudaDeviceSynchronize ;;
  end_ <- steady_clock_now ;;
  of_outcome (average_micros start end_ (num_repeats_ d)).

Definition backwardFilter (conv : CudnnConv) : M Z :=
  d <- self ;;
  input <- TensorCreate_rand [w_ d; h_ d; c_ d; n_ d] (curand_gen_ d) ;;
  dims <- conv_get_output_dims conv ;;
  delta <- TensorCreate_rand dims (curand_gen_ d) ;;
  dW <- TensorCreate_zeros [r_ d; s_ d; c_ d; k_ d] ;;
  conv_submit OpBackwardFilter conv input delta dW ;;
  cudaDeviceSynchronize ;;
  start <- steady_clock_now ;;
  for_int_lt (num_repeats_ d)
    (fun _ => conv_submit OpBackwardFilter conv input delta dW) ;;
  cudaDeviceSynchronize ;;
  end_ <- steady_clock_now ;;
  of_outcome (average_micros start end_ (num_repeats_ d)).

Definition backwardData (conv : CudnnConv) : M Z :=
  d <- self ;;
  filter <- TensorCreate_rand [r_ d; s_ d; c_ d; k_ d] (curand_gen_ d) ;;
  dims <- conv_get_output_dims conv ;;
  delta <- TensorCreate_rand dims (curand_gen_ d) ;;
  dX <- TensorCreate_zeros [w_ d; h_ d; c_ d; n_ d] ;;
  conv_submit OpBackwardData conv filter delta dX ;;
  cudaDeviceSynchronize ;;
  start <- steady_clock_now ;;
  for_int_lt (num_repeats_ d)
    (fun _ => conv_submit OpBackwardData conv filter delta dX) ;;
  cudaDeviceSynchronize ;;
  end_ <- steady_clock_now ;;
  of_outcome (average_micros start end_ (num_repeats_ d)).

Definition run (problemNumber : Z) : M Z :=
  d <- self ;;
  device <- vector_subscript (gpus_ d) 0 ;;
  conv <- createCudnnConv problemNumber device ;;
  d <- self ;;
  if method_ d =? FORWARD then
    conv_init OpForward conv ;; forward conv
  else if method_ d =? BACKWARD_DATA then
    conv_init OpBackwardData conv ;; backwardData conv
  else if method_ d =? BACKWARD_FILTER then
    conv_init OpBackwardFilter conv ;; backwardFilter conv
  else ret 0.

End Driver.

(** ** Observing a trace *)

(** The events a call appended to the trace: what follows the prefix that was
    there before the call. *)
Definition events_since (before after : World) : list Event :=
  skipn (length (trace before)) (trace after).

Definition is_submit (e : Event) : bool :=
  match e with
  | EvSubmit _ _ _ _ _ => true
  | _ => false
  end.

Definition is_barrier (e : Event) : bool :=
  match e with
  | EvDeviceSynchronize => true
  | _ => false
  end.

Definition is_clock (e : Event) : bool :=
  match e with
  | EvClockNow _ => true
  | _ => false
  end.

(** The device and clock events of the timing protocol: submissions,
    barriers and timestamp captures. *)
Definition is_timing (e : Event) : bool :=
  is_submit e || is_barrier e || is_clock e.

Definition timing_events (evs : list Event) : list Event := filter is_timing evs.

Definition barriers (evs : list Event) : nat := length (filter is_barrier evs).

Fixpoint timestamps (evs : list Event) : list Z :=
  match evs with
  | [] => []
  | EvClockNow t :: rest => t :: timestamps rest
  | _ :: rest => timestamps rest
  end.

Fixpoint tensors_created (evs : list Event) : list Tensor :=
  match evs with
  | [] => []
  | EvTensorCreate t :: rest => t :: tensors_created rest
  | _ :: rest => tensors_created rest
  end.

Fixpoint engines_created (evs : list Event) : list CudnnConv :=
  match evs with
  | [] => []
  | EvConvCreate conv :: rest => conv :: engines_created rest
  | _ :: rest => engines_created rest
  end.

Fixpoint output_dims_queries (evs : list Event) : list nat :=
  match evs with
  | [] => []
  | EvOutputDims id :: rest => id :: output_dims_queries rest
  | _ :: rest => output_dims_queries rest
  end.

(** The engine an event addresses, if it addresses one. *)
Definition engine_of (e : Event) : option nat :=
  match e with
  | EvConvCreate conv => Some (conv_id conv)
  | EvConvInit id _ => Some id
  | EvOutputDims id => Some id
  | EvSubmit id _ _ _ _ => Some id
  | _ => None
  end.

Definition uses_only_engine (id : nat) (evs : list Event) : bool :=
  forallb (fun e => match engine_of e with
                    | Some id' => Nat.eqb id' id
                    | None => true
                    end) evs.

(** The configuration a driver is constructed with. *)
Definition config (d : CudnnConvDriver)
  : CudnnConvMethod * Z * list Z * CudnnConvProblemSet :=
  (method_ d, num_repeats_ d, gpus_ d, problems_ d).

Definition named_method (m : CudnnConvMethod) : Prop :=
  m = FORWARD \/ m = BACKWARD_DATA \/ m = BACKWARD_FILTER.

Definition op_of_method (m : CudnnConvMethod) : ConvOp :=
  if m =? FORWARD then OpForward
  else if m =? BACKWARD_DATA then OpBackwardData
  else OpBackwardFilter.

(** ** A concrete setting: catalog, engine, clock *)

Module Scenario.

(** The problem of the specification's forward scenario, and a catalog of
    five entries. *)
Definition problem0 : ConvProblem := (5, 5, 3, 1, 2, 3, 3, 0, 0, 1, 1).

Definition catalog : CudnnConvProblemSet :=
  [ problem0;
    (700, 161, 1, 4, 32, 5, 20, 0, 0, 2, 2);
    (112, 112, 64, 8, 128, 3, 3, 1, 1, 1, 1);
    (56, 56, 128, 8, 256, 3, 3, 1, 1, 1, 1);
    (7, 7, 512, 16, 512, 3, 3, 1, 1, 1, 1) ].

(** An engine double that reports the usual convolution output shape. *)
Definition engine : ConvEngine := {|
  get_output_dims conv :=
    let '(w, h, c, n, k, r, s, pad_w, pad_h, wstride, hstride) := conv_shape conv in
    [ (w - r + 2 * pad_w) / wstride + 1; (h - s + 2 * pad_h) / hstride + 1; k; n ]
|}.

(** A clock whose first reading is [t0] and whose later readings are [t1]. *)
Definition clock2 (t0 t1 : Z) (k : nat) : Z :=
  match k with
  | O => t0
  | S _ => t1
  end.

(** The world before a driver is constructed, with the statuses the
    runtime and cuRAND are going to answer. *)
Definition boot (t0 t1 cuda_status curand_status : Z) : World :=
  mkWorld [] (clock2 t0 t1) 0 0 0 0 cuda_status curand_status.

Definition mem0 : ConvProblem := (0, 0, 0, 0, 0, 0, 0, 0, 0, 0, 0).

(** The driver and the world right after a successful construction. *)
Definition driver (method : CudnnConvMethod) (numRuns : Z) (gpus : list Z)
  : CudnnConvDriver :=
  mkDriver numRuns (gen_handle 0) method catalog 0 0 0 0 0 0 0 0 0 0 0 gpus.

Definition world0 (t0 t1 : Z) : World :=
  mkWorld [EvCudaFree 0; EvCurandCreate 0; EvCurandSeed (gen_handle 0) 42]
          (clock2 t0 t1) 0 0 1 0 cudaSuccess CURAND_STATUS_SUCCESS.

Definition start (method : CudnnConvMethod) (numRuns : Z) (gpus : list Z)
    (t0 t1 : Z) : State :=
  mkState (driver method numRuns gpus) (world0 t0 t1).

End Scenario.

(** ** Further observations of a driver and of a trace *)

(** The eleven shape members read back in the order of [createCudnnConv]'s
    [std::tie]. *)
Definition shape_members (d : CudnnConvDriver) : ConvProblem :=
  (w_ d, h_ d, c_ d, n_ d, k_ d, r_ d, s_ d, pad_w_ d, pad_h_ d,
   wstride_ d, hstride_ d).

(** Calls that only the constructor makes: device-context initialisation and
    the creation and seeding of the random generator. *)
Definition is_construction_call (e : Event) : bool :=
  match e with
  | EvCudaFree _ => true
  | EvCurandCreate _ => true
  | EvCurandSeed _ _ => true
  | _ => false
  end.

Fixpoint plan_inits (evs : list Event) : list (nat * ConvOp) :=
  match evs with
  | [] => []
  | EvConvInit id op :: rest => (id, op) :: plan_inits rest
  | _ :: rest => plan_inits rest
  end.

(** The generator a buffer was filled from, if it was filled at random. *)
Definition generator_of (t : Tensor) : option curandGenerator_t :=
  match t_fill t with
  | FillRandom g _ => Some g
  | FillZeros => None
  end.

Definition is_zero_filled (t : Tensor) : bool :=
  match t_fill t with
  | FillZeros => true
  | FillRandom _ _ => false
  end.

(** * Properties *)

(** *** Facts about rounding *)

Lemma shr_1_nonneg (r : shr_record) : 0 <= shr_m r -> 0 <= shr_m (shr_1 r).
Proof.
  destruct r as [m b s]; destruct m as [|[p|p|]|p]; simpl; lia.
Qed.

Lemma iter_shr_1_nonneg (p : positive) :
  forall r, 0 <= shr_m r -> 0 <= shr_m (iter_pos shr_1 p r).
Proof.
  induction p as [p IH|p IH|]; intros r Hr; simpl.
  - apply IH, IH, shr_1_nonneg, Hr.
  - apply IH, IH, Hr.
  - apply shr_1_nonneg, Hr.
Qed.

Lemma shr_m_of_loc (m : Z) (l : location) : shr_m (shr_record_of_loc m l) = m.
Proof. destruct l as [|[ | | ]]; reflexivity. Qed.

Lemma shr_fexp_nonneg (m e : Z) (l : location) :
  0 <= m -> 0 <= shr_m (fst (shr_fexp Double.prec Double.emax m e l)).
Proof.
  intros Hm. unfold shr_fexp, shr.
  destruct (fexp _ _ _ - e) as [|k|k]; simpl;
    try (rewrite shr_m_of_loc; exact Hm).
  apply iter_shr_1_nonneg. rewrite shr_m_of_loc. exact Hm.
Qed.

Lemma round_nearest_even_ge (m : Z) (l : location) :
  m <= round_nearest_even m l.
Proof.
  destruct l as [|[ | | ]]; simpl; try lia.
  destruct (Z.even m); lia.
Qed.

(** Rounding a non-negative mantissa keeps the sign it was given and never
    produces NaN. *)
Lemma binary_round_aux_sign (s : bool) (m e : Z) (l : location) :
  0 <= m ->
  Double.sign (binary_round_aux Double.prec Double.emax s m e l) = Some s.
Proof.
  intros Hm. unfold binary_round_aux.
  pose proof (shr_fexp_nonneg m e l Hm) as H1.
  destruct (shr_fexp Double.prec Double.emax m e l) as [r1 e1]; simpl in H1.
  pose proof (round_nearest_even_ge (shr_m r1) (loc_of_shr_record r1)) as H2.
  pose proof (shr_fexp_nonneg (round_nearest_even (shr_m r1) (loc_of_shr_record r1))
                e1 loc_Exact ltac:(lia)) as H3.
  destruct (shr_fexp _ _ (round_nearest_even _ _) e1 loc_Exact) as [r2 e2].
  simpl in H3.
  destruct (shr_m r2) as [|q|q]; try lia; try reflexivity.
  destruct (e2 <=? _); reflexivity.
Qed.

Lemma of_Z_sign (z : Z) : 0 <= z -> Double.sign (Double.of_Z z) = Some false.
Proof.
  intros Hz. unfold Double.of_Z, binary_normalize.
  destruct z as [|p|p]; try lia; try reflexivity.
  unfold binary_round.
  destruct (shl_align p 0 _) as [mz ez].
  apply binary_round_aux_sign. lia.
Qed.

Lemma SFdiv_core_binary_nonneg (m1 m2 : positive) (e1 e2 : Z) :
  0 <= fst (fst (SFdiv_core_binary Double.prec Double.emax (Zpos m1) e1 (Zpos m2) e2)).
Proof.
  unfold SFdiv_core_binary.
  set (sh := _ - _ - Z.min _ _).
  set (m' := match sh with Z0 => Zpos m1 | Zpos _ => Z.shiftl (Zpos m1) sh | Zneg _ => 0 end).
  assert (Hm' : 0 <= m').
  { subst m'. destruct sh; try lia. apply Z.shiftl_nonneg. lia. }
  pose proof (Z.div_pos m' (Zpos m2) Hm' ltac:(lia)) as Hq.
  unfold Z.div in Hq.
  destruct (Z.div_eucl m' (Zpos m2)) as [q r]. exact Hq.
Qed.

(** *** The number of binary digits under shifts *)

Lemma Zdigits2_shr_1 (r : shr_record) :
  0 <= shr_m r ->
  Zdigits2 (shr_m (shr_1 r)) = Z.max 0 (Zdigits2 (shr_m r) - 1).
Proof.
  destruct r as [m b s]; destruct m as [|[p|p|]|p];
    cbn [shr_1 shr_m Zdigits2 digits2_pos]; lia.
Qed.

Lemma Zdigits2_iter_shr_1 (k : positive) :
  forall r, 0 <= shr_m r ->
  Zdigits2 (shr_m (iter_pos shr_1 k r)) = Z.max 0 (Zdigits2 (shr_m r) - Zpos k).
Proof.
  induction k as [k IH|k IH|]; intros r Hr; simpl iter_pos.
  - rewrite IH by (apply iter_shr_1_nonneg, shr_1_nonneg, Hr).
    rewrite IH by (apply shr_1_nonneg, Hr).
    rewrite Zdigits2_shr_1 by exact Hr. lia.
  - rewrite IH by (apply iter_shr_1_nonneg, Hr).
    rewrite IH by exact Hr. lia.
  - apply Zdigits2_shr_1, Hr.
Qed.

Lemma Zdigits2_pos_iff (m : Z) : 0 <= m -> (0 < m <-> 0 < Zdigits2 m).
Proof. destruct m; simpl; lia. Qed.

Lemma digits2_pos_succ (p : positive) :
  (digits2_pos p <= digits2_pos (Pos.succ p))%positive.
Proof.
  induction p as [p IH|p IH|]; simpl; lia.
Qed.

Lemma Zdigits2_round_nearest_even (m : Z) (l : location) :
  0 < m -> Zdigits2 m <= Zdigits2 (round_nearest_even m l).
Proof.
  intros Hm. destruct m as [|p|p]; try lia.
  assert (H1 : Zdigits2 (Zpos p) <= Zdigits2 (Zpos p + 1)).
  { simpl. rewrite Pos.add_1_r. pose proof (digits2_pos_succ p). lia. }
  destruct l as [|[ | | ]]; unfold round_nearest_even; try lia.
  destruct (Z.even (Zpos p)); lia.
Qed.

Lemma digits2_pos_iter_xO (m d : positive) :
  digits2_pos (Pos.iter xO m d) = (digits2_pos m + d)%positive.
Proof.
  induction d as [|d IH] using Pos.peano_ind.
  - simpl. lia.
  - rewrite Pos.iter_succ. simpl. rewrite IH. lia.
Qed.

(** In the normal range [shr_fexp] keeps a positive mantissa positive and
    preserves the magnitude [digits + exponent]. *)
Lemma shr_fexp_pos (m e : Z) (l : location) :
  0 < m -> -1021 <= Zdigits2 m + e ->
  0 < shr_m (fst (shr_fexp Double.prec Double.emax m e l)) /\
  Zdigits2 (shr_m (fst (shr_fexp Double.prec Double.emax m e l)))
    + snd (shr_fexp Double.prec Double.emax m e l) = Zdigits2 m + e.
Proof.
  intros Hm Hn. unfold shr_fexp, shr.
  assert (Hk : fexp Double.prec Double.emax (Zdigits2 m + e) - e = Zdigits2 m - 53).
  { unfold fexp, emin, Double.prec, Double.emax. lia. }
  rewrite Hk.
  destruct (Zdigits2 m - 53) as [|k|k] eqn:E; simpl fst; simpl snd;
    rewrite ?shr_m_of_loc; try (split; [exact Hm | reflexivity]).
  pose proof (Zdigits2_iter_shr_1 k (shr_record_of_loc m l)) as Hd.
  rewrite shr_m_of_loc in Hd. specialize (Hd ltac:(lia)).
  pose proof (iter_shr_1_nonneg k (shr_record_of_loc m l)) as Hp.
  rewrite shr_m_of_loc in Hp. specialize (Hp ltac:(lia)).
  split.
  - apply Zdigits2_pos_iff; [exact Hp | lia].
  - lia.
Qed.

Lemma binary_round_aux_positive (m e : Z) (l : location) :
  0 < m -> -1021 <= Zdigits2 m + e ->
  Double.positive (binary_round_aux Double.prec Double.emax false m e l) = true.
Proof.
  intros Hm Hn. unfold binary_round_aux.
  destruct (shr_fexp_pos m e l Hm Hn) as [H1 H2].
  destruct (shr_fexp Double.prec Double.emax m e l) as [r1 e1].
  simpl fst in *; simpl snd in *.
  pose proof (round_nearest_even_ge (shr_m r1) (loc_of_shr_record r1)) as H3.
  pose proof (Zdigits2_round_nearest_even (shr_m r1) (loc_of_shr_record r1) H1) as H4.
  destruct (shr_fexp_pos (round_nearest_even (shr_m r1) (loc_of_shr_record r1))
              e1 loc_Exact ltac:(lia) ltac:(lia)) as [H5 _].
  destruct (shr_fexp _ _ (round_nearest_even _ _) e1 loc_Exact) as [r2 e2].
  simpl fst in *.
  destruct (shr_m r2) as [|q|q]; try lia.
  destruct (e2 <=? _); reflexivity.
Qed.

Lemma shl_align_digits (mx : positive) (ex ex' : Z) :
  Zdigits2 (Zpos (fst (shl_align mx ex ex'))) + snd (shl_align mx ex ex')
  = Zdigits2 (Zpos mx) + ex.
Proof.
  unfold shl_align. destruct (ex' - ex) as [|d|d] eqn:E;
    cbn [fst snd Zdigits2]; try reflexivity.
  rewrite digits2_pos_iter_xO. lia.
Qed.

(** Converting a strictly positive integer yields a strictly positive
    double. *)
Lemma of_Z_positive (z : Z) : 1 <= z -> Double.positive (Double.of_Z z) = true.
Proof.
  intros Hz. destruct z as [|p|p]; try lia.
  unfold Double.of_Z, binary_normalize, binary_round.
  pose proof (shl_align_digits p 0 (fexp Double.prec Double.emax (Zpos (digits2_pos p) + 0))) as Hd.
  destruct (shl_align p 0 _) as [mz ez]. simpl fst in Hd; simpl snd in Hd.
  apply binary_round_aux_positive; [lia|].
  rewrite Hd. simpl. lia.
Qed.


(** *** Exact conversions and the bracket of a rounded quotient *)

Lemma digits2_pos_bounds (p : positive) :
  2 ^ (Zpos (digits2_pos p) - 1) <= Zpos p < 2 ^ Zpos (digits2_pos p).
Proof.
  induction p as [p IH|p IH|]; cbn [digits2_pos].
  - rewrite Pos2Z.inj_succ.
    replace (Z.succ (Zpos (digits2_pos p)) - 1) with (Z.succ (Zpos (digits2_pos p) - 1)) by lia.
    rewrite !Z.pow_succ_r by lia. lia.
  - rewrite Pos2Z.inj_succ.
    replace (Z.succ (Zpos (digits2_pos p)) - 1) with (Z.succ (Zpos (digits2_pos p) - 1)) by lia.
    rewrite !Z.pow_succ_r by lia. lia.
  - simpl. lia.
Qed.

(** A positive number between [2^(d-1)] and [2^d] has [d] binary digits. *)
Lemma digits2_pos_unique (p : positive) (d : Z) :
  2 ^ (d - 1) <= Zpos p < 2 ^ d -> Zpos (digits2_pos p) = d.
Proof.
  intros [Hlo Hhi].
  pose proof (digits2_pos_bounds p) as [Blo Bhi].
  assert (0 < d).
  { destruct (Z_lt_le_dec 0 d) as [H0|H0]; [exact H0|].
    assert (2 ^ d <= 1).
    { destruct (Z.eq_dec d 0) as [->|Hn]; [simpl; lia|].
      rewrite Z.pow_neg_r by lia. lia. }
    lia. }
  assert (d - 1 < Zpos (digits2_pos p)).
  { apply (Z.pow_lt_mono_r_iff 2); lia. }
  assert (Zpos (digits2_pos p) - 1 < d).
  { apply (Z.pow_lt_mono_r_iff 2); lia. }
  lia.
Qed.

Lemma round_nearest_even_le (m : Z) (l : location) :
  round_nearest_even m l <= m + 1.
Proof.
  destruct l as [|[ | | ]]; unfold round_nearest_even; try lia.
  destruct (Z.even m); lia.
Qed.

Lemma shr_m_shr_1 (r : shr_record) :
  0 <= shr_m r -> shr_m (shr_1 r) = shr_m r / 2.
Proof.
  destruct r as [m b s]. cbn [shr_m]. intros Hm.
  destruct m as [|[p|p|]|p]; cbn [shr_1 shr_m]; try lia; try reflexivity.
  - apply Z.div_unique with (r := 1); lia.
  - apply Z.div_unique with (r := 0); lia.
Qed.

Lemma Zpos_iter_xO (p k : positive) :
  Zpos (Pos.iter xO p k) = Zpos p * 2 ^ Zpos k.
Proof.
  induction k as [|k IH] using Pos.peano_ind.
  - simpl. lia.
  - rewrite Pos.iter_succ, Pos2Z.inj_xO, IH, Pos2Z.inj_succ, Z.pow_succ_r by lia.
    lia.
Qed.

(** The first alignment of [binary_round_aux]: a mantissa of [53 + c] digits
    loses its [c] low bits. *)
Lemma shr_fexp_digits (p : positive) (e c : Z) (l : location) :
  0 <= c <= 1 ->
  2 ^ (52 + c) <= Zpos p < 2 ^ (53 + c) ->
  -1074 <= e ->
  snd (shr_fexp Double.prec Double.emax (Zpos p) e l) = e + c
  /\ shr_m (fst (shr_fexp Double.prec Double.emax (Zpos p) e l)) = Zpos p / 2 ^ c.
Proof.
  intros Hc Hp He.
  assert (Hd : Zdigits2 (Zpos p) = 53 + c).
  { cbn [Zdigits2]. apply digits2_pos_unique.
    replace (53 + c - 1) with (52 + c) by lia. exact Hp. }
  unfold shr_fexp. rewrite Hd.
  assert (Hk : fexp Double.prec Double.emax (53 + c + e) - e = c).
  { unfold fexp, emin, Double.prec, Double.emax. lia. }
  rewrite Hk.
  assert (Hc' : c = 0 \/ c = 1) by lia.
  destruct Hc' as [-> | ->]; cbn [shr iter_pos fst snd].
  - rewrite shr_m_of_loc. split; [lia|]. rewrite Z.pow_0_r, Z.div_1_r. reflexivity.
  - rewrite shr_m_shr_1 by (rewrite shr_m_of_loc; lia).
    rewrite shr_m_of_loc. split; [lia|]. reflexivity.
Qed.

(** The location of a remainder [r] of a division by [d] asks for rounding
    up only when [r] is at least half of [d]. *)
Lemma new_location_up (d r : Z) :
  match new_location d r with
  | loc_Inexact Eq | loc_Inexact Gt => d <= 2 * r
  | _ => True
  end.
Proof.
  unfold new_location, new_location_even, new_location_odd.
  destruct (Z.even d); destruct (r =? 0); try exact I.
  - destruct (Z.compare_spec (2 * r) d); cbv iota; first [exact I | lia].
  - destruct (Z.compare_spec (2 * r + 1) d); cbv iota; first [exact I | lia].
Qed.

(** Rounding to nearest after the first alignment: the rounded mantissa
    exceeds the aligned quotient [(p + r / d) / 2^c] by a half at most. *)
Lemma shr_fexp_round_up (p : positive) (e c d r : Z) (l : location) :
  0 <= c <= 1 ->
  2 ^ (52 + c) <= Zpos p < 2 ^ (53 + c) ->
  -1074 <= e ->
  0 < d -> 0 <= r ->
  match l with
  | loc_Inexact Eq | loc_Inexact Gt => d <= 2 * r
  | _ => True
  end ->
  let r1 := fst (shr_fexp Double.prec Double.emax (Zpos p) e l) in
  2 * d * (round_nearest_even (shr_m r1) (loc_of_shr_record r1) * 2 ^ c)
  <= 2 * (Zpos p * d + r) + 2 ^ c * d.
Proof.
  intros Hc Hp He Hd0 Hr Hl r1. subst r1.
  assert (Hd : Zdigits2 (Zpos p) = 53 + c).
  { cbn [Zdigits2]. apply digits2_pos_unique.
    replace (53 + c - 1) with (52 + c) by lia. exact Hp. }
  unfold shr_fexp. rewrite Hd.
  assert (Hk : fexp Double.prec Double.emax (53 + c + e) - e = c).
  { unfold fexp, emin, Double.prec, Double.emax. lia. }
  rewrite Hk. clear Hd Hk Hp.
  assert (Hc' : c = 0 \/ c = 1) by lia.
  destruct Hc' as [-> | ->]; cbn [shr iter_pos fst].
  - rewrite Z.pow_0_r.
    destruct l as [|[| |]];
      cbn [shr_record_of_loc shr_m loc_of_shr_record round_nearest_even];
      try destruct (Z.even _); nia.
  - change (2 ^ 1) with 2.
    destruct l as [|[| |]]; destruct p as [p'|p'|];
      cbn [shr_record_of_loc shr_1 orb shr_m loc_of_shr_record round_nearest_even];
      try destruct (Z.even _); nia.
Qed.

(** Rounding a mantissa of [53 + c] digits in the normal range: the result
    is a finite number with a 53-digit mantissa, equal to the mantissa without
    its [c] low bits or to the next integer, in units of [2^(e + c)]. *)
Lemma binary_round_aux_bracket (p : positive) (e c d r : Z) (l : location) :
  0 <= c <= 1 ->
  2 ^ (52 + c) <= Zpos p < 2 ^ (53 + c) ->
  -1074 <= e -> e + c + 1 <= 971 ->
  0 < d -> 0 <= r ->
  match l with
  | loc_Inexact Eq | loc_Inexact Gt => d <= 2 * r
  | _ => True
  end ->
  exists (mr : positive) (k : Z),
    binary_round_aux Double.prec Double.emax false (Zpos p) e l
      = S754_finite false mr (e + c + k)
    /\ 0 <= k <= 1
    /\ 2 ^ 52 <= Zpos mr < 2 ^ 53
    /\ Zpos p / 2 ^ c <= Zpos mr * 2 ^ k <= Zpos p / 2 ^ c + 1
    /\ (k = 1 -> Zpos mr = 2 ^ 52)
    /\ 2 * d * (Zpos mr * 2 ^ k * 2 ^ c) <= 2 * (Zpos p * d + r) + 2 ^ c * d.
Proof.
  intros Hc Hp He Hmax Hd0 Hr Hl. unfold binary_round_aux.
  pose proof (shr_fexp_round_up p e c d r l Hc Hp He Hd0 Hr Hl) as Hup.
  cbv zeta in Hup.
  destruct (shr_fexp_digits p e c l Hc Hp He) as [He1 Hm1].
  destruct (shr_fexp Double.prec Double.emax (Zpos p) e l) as [r1 e1].
  cbn [fst snd] in He1, Hm1. subst e1.
  assert (Hma : 2 ^ 52 <= shr_m r1 < 2 ^ 53).
  { rewrite Hm1. assert (Hc' : c = 0 \/ c = 1) by lia.
    destruct Hc' as [-> | ->].
    - rewrite Z.pow_0_r, Z.div_1_r. exact Hp.
    - change (52 + 1) with 53 in Hp. change (53 + 1) with 54 in Hp.
      change (2 ^ 1) with 2. split.
      + apply Z.div_le_lower_bound; lia.
      + apply Z.div_lt_upper_bound; lia. }
  cbn [fst] in Hup.
  set (mb := round_nearest_even (shr_m r1) (loc_of_shr_record r1)) in *.
  assert (Hmb : shr_m r1 <= mb <= shr_m r1 + 1).
  { split; [apply round_nearest_even_ge | apply round_nearest_even_le]. }
  destruct mb as [|pb|pb] eqn:Emb; try lia.
  destruct (Z_lt_le_dec (Zpos pb) (2 ^ 53)) as [Hlt|Hge].
  - destruct (shr_fexp_digits pb (e + c) 0 loc_Exact ltac:(lia) ltac:(simpl; lia) ltac:(lia))
      as [He2 Hm2].
    destruct (shr_fexp Double.prec Double.emax (Zpos pb) (e + c) loc_Exact) as [r2 e2].
    cbn [fst snd] in He2, Hm2. subst e2.
    rewrite Z.pow_0_r, Z.div_1_r in Hm2. rewrite Hm2.
    assert (Hle : (e + c + 0 <=? Double.emax - Double.prec) = true).
    { apply Z.leb_le. unfold Double.emax, Double.prec. lia. }
    rewrite Hle. exists pb, 0. split; [reflexivity|].
    split; [lia|]. split; [lia|].
    split; [rewrite Z.pow_0_r, <- Hm1; lia|].
    split; [lia|]. rewrite Z.pow_0_r, Z.mul_1_r. exact Hup.
  - assert (Hpb : Zpos pb = 2 ^ 53) by lia.
    destruct (shr_fexp_digits pb (e + c) 1 loc_Exact ltac:(lia)
                ltac:(rewrite Hpb; simpl; lia) ltac:(lia)) as [He2 Hm2].
    destruct (shr_fexp Double.prec Double.emax (Zpos pb) (e + c) loc_Exact) as [r2 e2].
    cbn [fst snd] in He2, Hm2. subst e2.
    rewrite Hpb in Hm2. change (2 ^ 53 / 2 ^ 1) with (2 ^ 52) in Hm2.
    rewrite Hm2. change (2 ^ 52) with (Zpos (Pos.pow 2 52)).
    assert (Hle : (e + c + 1 <=? Double.emax - Double.prec) = true).
    { apply Z.leb_le. unfold Double.emax, Double.prec. lia. }
    rewrite Hle. exists (Pos.pow 2 52), 1. split; [reflexivity|].
    split; [lia|]. split; [simpl; lia|].
    change (Zpos (2 ^ 52) * 2 ^ 1) with (2 ^ 53).
    split; [rewrite <- Hm1; lia|].
    split; [reflexivity|]. rewrite <- Hpb. exact Hup.
Qed.

Lemma binary_round_aux_exact (p : positive) (e : Z) :
  2 ^ 52 <= Zpos p < 2 ^ 53 -> -1074 <= e <= 971 ->
  binary_round_aux Double.prec Double.emax false (Zpos p) e loc_Exact
  = S754_finite false p e.
Proof.
  intros Hp He. unfold binary_round_aux.
  destruct (shr_fexp_digits p e 0 loc_Exact ltac:(lia) ltac:(simpl; lia) ltac:(lia))
    as [He1 Hm1].
  assert (Hr1 : fst (shr_fexp Double.prec Double.emax (Zpos p) e loc_Exact)
                = Build_shr_record (Zpos p) false false).
  { unfold shr_fexp.
    assert (Hd : Zdigits2 (Zpos p) = 53).
    { cbn [Zdigits2]. apply digits2_pos_unique. simpl. lia. }
    rewrite Hd.
    assert (Hk : fexp Double.prec Double.emax (53 + e) - e = 0).
    { unfold fexp, emin, Double.prec, Double.emax. lia. }
    rewrite Hk. reflexivity. }
  destruct (shr_fexp Double.prec Double.emax (Zpos p) e loc_Exact) as [r1 e1].
  cbn [fst snd] in He1, Hm1, Hr1. subst e1 r1.
  cbn [shr_m loc_of_shr_record round_nearest_even].
  replace (e + 0) with e by lia.
  destruct (shr_fexp_digits p e 0 loc_Exact ltac:(lia) ltac:(simpl; lia) ltac:(lia))
    as [He2 Hm2].
  destruct (shr_fexp Double.prec Double.emax (Zpos p) e loc_Exact) as [r2 e2].
  cbn [fst snd] in He2, Hm2. subst e2.
  rewrite Z.pow_0_r, Z.div_1_r in Hm2. rewrite Hm2.
  replace (e + 0) with e by lia.
  assert (Hle : (e <=? Double.emax - Double.prec) = true).
  { apply Z.leb_le. unfold Double.emax, Double.prec. lia. }
  rewrite Hle. reflexivity.
Qed.

(** An integer below [2^53] converts exactly: the result is the integer
    scaled to a 53-digit mantissa. *)
Lemma of_Z_exact (z : Z) :
  0 < z < 2 ^ 53 ->
  exists (m : positive) (a : Z),
    Double.of_Z z = S754_finite false m (- a)
    /\ 0 <= a <= 52
    /\ Zpos m = z * 2 ^ a
    /\ 2 ^ 52 <= Zpos m < 2 ^ 53.
Proof.
  intros Hz. destruct z as [|p|p]; try lia.
  unfold Double.of_Z, binary_normalize, binary_round.
  pose proof (digits2_pos_bounds p) as [Blo Bhi].
  set (d := Zpos (digits2_pos p)) in *.
  assert (Hd : 1 <= d <= 53).
  { split; [subst d; lia|].
    assert (d - 1 < 53); [|lia].
    apply (Z.pow_lt_mono_r_iff 2); lia. }
  assert (Hf : fexp Double.prec Double.emax (d + 0) = d - 53).
  { unfold fexp, emin, Double.prec, Double.emax. lia. }
  rewrite Hf. unfold shl_align.
  destruct (d - 53 - 0) as [|k|k] eqn:Ek; try lia.
  - assert (d = 53) by lia.
    assert (Hp : 2 ^ 52 <= Zpos p < 2 ^ 53).
    { replace 52 with (d - 1) by lia. replace 53 with d by lia. lia. }
    rewrite binary_round_aux_exact by (simpl in *; lia).
    exists p, 0. repeat split; simpl in *; lia.
  - assert (Hk : Zpos k = 53 - d) by lia.
    assert (Hm : Zpos (Pos.iter xO p k) = Zpos p * 2 ^ (53 - d)).
    { rewrite Zpos_iter_xO, Hk. reflexivity. }
    assert (Hp : 2 ^ 52 <= Zpos (Pos.iter xO p k) < 2 ^ 53).
    { rewrite Hm.
      replace (2 ^ 52) with (2 ^ (d - 1) * 2 ^ (53 - d))
        by (rewrite <- Z.pow_add_r by lia; f_equal; lia).
      replace (2 ^ 53) with (2 ^ d * 2 ^ (53 - d))
        by (rewrite <- Z.pow_add_r by lia; f_equal; lia).
      assert (0 < 2 ^ (53 - d)) by (apply Z.pow_pos_nonneg; lia).
      split; [apply Z.mul_le_mono_nonneg_r; lia | apply Z.mul_lt_mono_pos_r; lia]. }
    rewrite binary_round_aux_exact by (try exact Hp; lia).
    exists (Pos.iter xO p k), (53 - d).
    split; [f_equal; lia|]. split; [lia|]. split; [exact Hm | exact Hp].
Qed.

(** The quotient of two finite positive numbers with 53-digit mantissas, in
    the normal range: a finite number with a 53-digit mantissa which, in units
    of [2^(ex - ey - 53 + c)], is the integer quotient of the mantissas or the
    next integer. *)
Lemma SFdiv_canonical (mx my : positive) (ex ey : Z) :
  2 ^ 52 <= Zpos mx < 2 ^ 53 ->
  2 ^ 52 <= Zpos my < 2 ^ 53 ->
  -1021 <= ex - ey <= 900 ->
  exists (mr : positive) (c k : Z),
    Double.div (S754_finite false mx ex) (S754_finite false my ey)
      = S754_finite false mr (ex - ey - 53 + c + k)
    /\ 0 <= c <= 1 /\ 0 <= k <= 1
    /\ 2 ^ 52 <= Zpos mr < 2 ^ 53
    /\ Zpos mx * 2 ^ (53 - c) / Zpos my <= Zpos mr * 2 ^ k
       <= Zpos mx * 2 ^ (53 - c) / Zpos my + 1
    /\ (k = 1 -> Zpos mr = 2 ^ 52)
    /\ (c = 1 -> Zpos my <= Zpos mx)
    /\ 2 * Zpos my * (Zpos mr * 2 ^ k)
       <= 2 * (Zpos mx * 2 ^ (53 - c)) + Zpos my.
Proof.
  intros Hx Hy He.
  unfold Double.div, SFdiv, SFdiv_core_binary. cbn [xorb Zdigits2].
  rewrite (digits2_pos_unique mx 53) by (simpl; lia).
  rewrite (digits2_pos_unique my 53) by (simpl; lia).
  assert (He' : Z.min (fexp Double.prec Double.emax (53 + ex - (53 + ey))) (ex - ey)
                = ex - ey - 53).
  { unfold fexp, emin, Double.prec, Double.emax. lia. }
  rewrite He'.
  replace (ex - ey - (ex - ey - 53)) with 53 by lia.
  cbv iota beta. rewrite Z.shiftl_mul_pow2 by lia.
  set (num := Zpos mx * 2 ^ 53).
  assert (Hq : fst (Z.div_eucl num (Zpos my)) = num / Zpos my) by reflexivity.
  pose proof (Z_div_mod num (Zpos my) ltac:(lia)) as Hr.
  destruct (Z.div_eucl num (Zpos my)) as [q r]. cbn [fst] in Hq. subst q.
  destruct Hr as [Hnum Hr].
  pose proof (new_location_up (Zpos my) r) as Hl.
  assert (Hqlo : 2 ^ 52 <= num / Zpos my).
  { apply Z.div_le_lower_bound; [lia|]. subst num.
    transitivity (2 ^ 53 * 2 ^ 52); [lia|].
    rewrite (Z.mul_comm (Zpos mx)). apply Z.mul_le_mono_nonneg; lia. }
  assert (Hqhi : num / Zpos my < 2 ^ 54).
  { apply Z.div_lt_upper_bound; [lia|]. subst num.
    apply Z.lt_le_trans with (2 ^ 53 * 2 ^ 53); [lia|].
    change (2 ^ 54) with (2 ^ 53 * 2).
    rewrite (Z.mul_comm (Zpos my)), <- Z.mul_assoc.
    apply Z.mul_le_mono_nonneg_l; lia. }
  destruct (num / Zpos my) as [|pq|pq] eqn:Eq; try lia.
  destruct (Z_lt_le_dec (Zpos pq) (2 ^ 53)) as [Hlt|Hge].
  - destruct (binary_round_aux_bracket pq (ex - ey - 53) 0 (Zpos my) r
                (new_location (Zpos my) r)
                ltac:(lia) ltac:(simpl; lia) ltac:(lia) ltac:(lia)
                ltac:(lia) ltac:(lia) Hl)
      as (mr & k & Er & Hk & Hmr & Hb & Hcarry & Hnear).
    exists mr, 0, k. rewrite Er.
    split; [f_equal; lia|]. split; [lia|]. split; [exact Hk|]. split; [exact Hmr|].
    rewrite Z.pow_0_r, Z.div_1_r in Hb.
    replace (53 - 0) with 53 by lia. fold num.
    split; [rewrite Eq; exact Hb|].
    split; [exact Hcarry|]. split; [lia|].
    rewrite Z.pow_0_r in Hnear. lia.
  - destruct (binary_round_aux_bracket pq (ex - ey - 53) 1 (Zpos my) r
                (new_location (Zpos my) r)
                ltac:(lia) ltac:(simpl; lia) ltac:(lia) ltac:(lia)
                ltac:(lia) ltac:(lia) Hl)
      as (mr & k & Er & Hk & Hmr & Hb & Hcarry & Hnear).
    exists mr, 1, k. rewrite Er.
    split; [f_equal; lia|]. split; [lia|]. split; [exact Hk|]. split; [exact Hmr|].
    assert (Hhalf : Zpos mx * 2 ^ (53 - 1) / Zpos my = Zpos pq / 2 ^ 1).
    { rewrite <- Eq. subst num. change (2 ^ 1) with 2.
      rewrite Z.div_div by lia.
      change (2 ^ 53) with (2 ^ 52 * 2). change (53 - 1) with 52.
      rewrite Z.mul_assoc. rewrite Z.div_mul_cancel_r by lia. reflexivity. }
    split; [rewrite Hhalf; exact Hb|].
    split; [exact Hcarry|].
    split.
    + intros _. subst num.
      assert (Hge' : 2 ^ 53 * Zpos my <= Zpos mx * 2 ^ 53) by nia.
      lia.
    + change (53 - 1) with 52. change (2 ^ 1) with 2 in Hnear.
      subst num. change (2 ^ 53) with (2 ^ 52 * 2) in Hnum. lia.
Qed.

(** *** The reduction in exact arithmetic *)

Ltac eval_pows :=
  repeat match goal with
         | |- context [2 ^ ?e] =>
             let v := eval vm_compute in (2 ^ e) in
             progress change (2 ^ e) with v
         | H : context [2 ^ ?e] |- _ =>
             let v := eval vm_compute in (2 ^ e) in
             progress change (2 ^ e) with v in H
         end.

(** The core inequality: with the two quotients rounded to nearest, the
    final mantissa lies between [k] and [k + 1] units of [1 / W]. *)
Lemma quotient_arith (T n A B W g m1 m2 q1 q2 c1 k1 c2 k2 : Z) :
  0 < T -> 1 <= n -> 1 <= A -> 0 < B -> 0 < W ->
  T * A < 2 ^ 53 -> 2 ^ 52 <= n * B < 2 ^ 53 ->
  0 <= c1 <= 1 -> 0 <= k1 <= 1 -> 0 <= c2 <= 1 -> 0 <= k2 <= 1 ->
  g = 63 - c1 - k1 - c2 - k2 ->
  W * B = A * 2 ^ g ->
  1000 * q1 <= T * A * 2 ^ (10 - c1) < 1000 * q1 + 1000 ->
  q1 <= m1 * 2 ^ k1 ->
  1000 * (m1 * 2 ^ k1) <= T * A * 2 ^ (10 - c1) + 500 ->
  (k1 = 1 -> m1 = 2 ^ 52) ->
  n * B * q2 <= m1 * 2 ^ (53 - c2) < n * B * q2 + n * B ->
  q2 <= m2 * 2 ^ k2 ->
  2 * (n * B) * (m2 * 2 ^ k2) <= 2 * (m1 * 2 ^ (53 - c2)) + n * B ->
  (c2 = 1 -> n * B <= m1) ->
  T / (1000 * n) * W <= m2 < (T / (1000 * n) + 1) * W.
Proof.
  intros HT Hn HA HB HW HTA HnB Hc1 Hk1 Hc2 Hk2 Hg HWB Hq1 Hb1 Hn1 Hcarry
         Hq2 Hb2 Hn2 Hbig.
  set (k := T / (1000 * n)).
  assert (Hk : 1000 * n * k <= T /\ T + 1 <= 1000 * n * (k + 1)).
  { subst k. split.
    - apply Z.mul_div_le. lia.
    - pose proof (Z.mul_succ_div_gt T (1000 * n) ltac:(lia)). lia. }
  assert (Hk0 : 0 <= k) by (subst k; apply Z.div_pos; lia).
  clearbody k. destruct Hk as [Hklo Hkhi].
  set (P := T * A) in *. set (N := n * B) in *.
  set (KA := n * k * A). set (nA := n * A).
  assert (HN : 0 < N) by lia.
  assert (HKA0 : 0 <= KA) by (subst KA; nia).
  assert (HKA : 1000 * KA <= P).
  { subst KA P. replace (1000 * (n * k * A)) with (1000 * n * k * A) by ring.
    apply Z.mul_le_mono_nonneg_r; lia. }
  assert (HKA1 : P + A <= 1000 * (KA + nA)).
  { subst KA P nA.
    replace (T * A + A) with ((T + 1) * A) by ring.
    replace (1000 * (n * k * A + n * A)) with (1000 * n * (k + 1) * A) by ring.
    apply Z.mul_le_mono_nonneg_r; lia. }
  set (Z1 := k * W).
  assert (Hid : N * Z1 = KA * 2 ^ g).
  { subst N Z1 KA. replace (n * B * (k * W)) with (n * k * (W * B)) by ring.
    rewrite HWB. ring. }
  assert (Hid1 : N * (Z1 + W) = (KA + nA) * 2 ^ g).
  { subst N Z1 KA nA.
    replace (n * B * (k * W + W)) with ((n * k + n) * (W * B)) by ring.
    rewrite HWB. ring. }
  assert (HNq : N * q2 <= N * (m2 * 2 ^ k2)).
  { apply Z.mul_le_mono_nonneg_l; lia. }
  replace ((k + 1) * W) with (Z1 + W) by (subst Z1; ring).
  fold Z1. subst g.
  set (U := KA + nA) in *.
  clearbody P N KA nA Z1 U.
  assert (H1 : c1 = 0 \/ c1 = 1) by lia.
  assert (H2 : k1 = 0 \/ k1 = 1) by lia.
  assert (H3 : c2 = 0 \/ c2 = 1) by lia.
  assert (H4 : k2 = 0 \/ k2 = 1) by lia.
  assert (Hlow : Z1 * 2 ^ k2 <= q2).
  { destruct (Z_lt_le_dec q2 (Z1 * 2 ^ k2)) as [Hbad|Hok]; [|exact Hok].
    exfalso.
    assert (Hm : N * (q2 + 1) <= N * (Z1 * 2 ^ k2)).
    { apply Z.mul_le_mono_nonneg_l; lia. }
    replace (N * (Z1 * 2 ^ k2)) with (N * Z1 * 2 ^ k2) in Hm by ring.
    rewrite Hid in Hm.
    destruct H1 as [-> | ->], H2 as [-> | ->], H3 as [-> | ->], H4 as [-> | ->];
      eval_pows; lia. }
  split.
  - destruct H4 as [-> | ->]; eval_pows; lia.
  - assert (Hup : N * (m2 * 2 ^ k2) < N * ((Z1 + W) * 2 ^ k2)).
    { replace (N * ((Z1 + W) * 2 ^ k2)) with (N * (Z1 + W) * 2 ^ k2) by ring.
      rewrite Hid1.
      destruct H2 as [-> | ->], H3 as [-> | ->].
      - destruct H1 as [-> | ->], H4 as [-> | ->]; eval_pows; lia.
      - destruct H1 as [-> | ->], H4 as [-> | ->]; eval_pows; lia.
      - destruct H1 as [-> | ->], H4 as [-> | ->]; eval_pows; lia.
      - assert (HN52 : N = 2 ^ 52).
        { specialize (Hbig eq_refl). specialize (Hcarry eq_refl). lia. }
        rewrite HN52 in *.
        destruct H1 as [-> | ->], H4 as [-> | ->]; eval_pows; lia. }
    apply Z.mul_lt_mono_pos_l in Hup; [|exact HN].
    destruct H4 as [-> | ->]; eval_pows; lia.
Qed.

(** The double computed by the reduction, truncated, is the integer quotient
    of the nanoseconds by a thousand times the repeat count, for an elapsed
    time below [2^53] ns, which converts to [double] exactly, and a repeat
    count that is a positive [int]. *)
Lemma quotient_truncates (T n : Z) :
  0 < T < 2 ^ 53 -> 1 <= n < 2 ^ 31 ->
  Double.trunc
    (Double.div (Double.div (Double.of_Z T) (Double.of_Z 1000)) (Double.of_Z n))
  = Some (T / (1000 * n)).
Proof.
  intros HT Hn.
  destruct (of_Z_exact T ltac:(lia)) as (mx & a & Ex & Ha & Hmx & Hxc).
  assert (Ey : Double.of_Z 1000 = S754_finite false 8796093022208000 (-43))
    by (vm_compute; reflexivity).
  destruct (of_Z_exact n ltac:(lia)) as (mn & b & En & Hb & Hmn & Hnc).
  assert (Hb22 : 22 <= b).
  { destruct (Z_lt_le_dec b 22) as [Hlt|Hge]; [|exact Hge]. exfalso.
    assert (2 ^ b <= 2 ^ 21) by (apply Z.pow_le_mono_r; lia).
    assert (n * 2 ^ b <= n * 2 ^ 21) by (apply Z.mul_le_mono_nonneg_l; lia).
    assert (n * 2 ^ 21 < 2 ^ 31 * 2 ^ 21) by (apply Z.mul_lt_mono_pos_r; lia).
    lia. }
  rewrite Ex, Ey, En.
  destruct (SFdiv_canonical mx 8796093022208000 (- a) (-43) Hxc ltac:(lia) ltac:(lia))
    as (m1 & c1 & k1 & E1 & Hc1 & Hk1 & Hm1 & Hq1 & Hcarry1 & _ & Hnear1).
  rewrite E1.
  destruct (SFdiv_canonical m1 mn (- a - -43 - 53 + c1 + k1) (- b) Hm1 Hnc ltac:(lia))
    as (m2 & c2 & k2 & E2 & Hc2 & Hk2 & Hm2 & Hq2 & _ & Hbig2 & Hnear2).
  rewrite E2. cbn [Double.trunc cond_Zopp]. f_equal.
  set (e2 := - a - -43 - 53 + c1 + k1 - - b - 53 + c2 + k2).
  assert (He2 : e2 = - (a + 63 - c1 - k1 - c2 - k2 - b)) by (subst e2; lia).
  assert (Hneg : e2 <= 0) by lia.
  rewrite Z.shiftl_div_pow2 by exact Hneg.
  set (W := 2 ^ (- e2)).
  assert (HW : 0 < W) by (subst W; apply Z.pow_pos_nonneg; lia).
  set (A := 2 ^ a) in *. set (B := 2 ^ b) in *.
  assert (HA : 1 <= A).
  { subst A. change 1 with (2 ^ 0). apply Z.pow_le_mono_r; lia. }
  assert (HB : 0 < B) by (subst B; apply Z.pow_pos_nonneg; lia).
  assert (HWB : W * B = A * 2 ^ (63 - c1 - k1 - c2 - k2)).
  { subst W A B. rewrite <- !Z.pow_add_r by lia. f_equal. lia. }
  assert (Hscale : Zpos mx * 2 ^ (53 - c1) = T * A * 2 ^ (10 - c1) * 2 ^ 43).
  { rewrite Hmx. replace (53 - c1) with (10 - c1 + 43) by lia.
    rewrite Z.pow_add_r by lia. ring. }
  assert (Hq1' : Zpos mx * 2 ^ (53 - c1) / 8796093022208000
                 = T * A * 2 ^ (10 - c1) / 1000).
  { rewrite Hscale.
    change 8796093022208000 with (1000 * 2 ^ 43).
    rewrite Z.div_mul_cancel_r by lia. reflexivity. }
  rewrite Hq1' in Hq1.
  rewrite Hmn in Hq2, Hbig2, Hnear2.
  assert (Hnear1' : 1000 * (Zpos m1 * 2 ^ k1) <= T * A * 2 ^ (10 - c1) + 500).
  { rewrite Hscale in Hnear1.
    change (Zpos 8796093022208000) with (1000 * 2 ^ 43) in Hnear1.
    change (2 ^ 43) with 8796093022208 in Hnear1. lia. }
  pose proof (quotient_arith T n A B W (63 - c1 - k1 - c2 - k2) (Zpos m1) (Zpos m2)
                (T * A * 2 ^ (10 - c1) / 1000)
                (Zpos m1 * 2 ^ (53 - c2) / (n * B)) c1 k1 c2 k2
                ltac:(lia) ltac:(lia) HA HB HW ltac:(lia) ltac:(lia)
                Hc1 Hk1 Hc2 Hk2 eq_refl HWB) as Har.
  assert (HnB : 0 < n * B) by lia.
  specialize (Har ltac:(split;
                        [apply Z.mul_div_le; lia
                        |pose proof (Z.mul_succ_div_gt (T * A * 2 ^ (10 - c1)) 1000 ltac:(lia)); lia])).
  specialize (Har (proj1 Hq1) Hnear1' Hcarry1).
  specialize (Har ltac:(split;
                        [apply Z.mul_div_le; lia
                        |pose proof (Z.mul_succ_div_gt (Zpos m1 * 2 ^ (53 - c2)) (n * B) ltac:(lia)); lia])).
  specialize (Har (proj1 Hq2) Hnear2 Hbig2).
  symmetry. apply Z.div_unique with (r := Zpos m2 - W * (T / (1000 * n))); lia.
Qed.

(** ** Lists of events *)

Lemma filter_repeat {A : Type} (f : A -> bool) (x : A) (k : nat) :
  f x = true -> filter f (repeat x k) = repeat x k.
Proof.
  intros Hx. induction k as [|k IH]; simpl; [reflexivity|].
  rewrite Hx, IH. reflexivity.
Qed.

Lemma filter_repeat_none {A : Type} (f : A -> bool) (x : A) (k : nat) :
  f x = false -> filter f (repeat x k) = [].
Proof.
  intros Hx. induction k as [|k IH]; simpl; [reflexivity|].
  rewrite Hx, IH. reflexivity.
Qed.

Lemma events_since_app (w w' : World) (evs : list Event) :
  trace w' = trace w ++ evs -> events_since w w' = evs.
Proof.
  intros E. unfold events_since. rewrite E.
  rewrite skipn_app, skipn_all, Nat.sub_diag. reflexivity.
Qed.

Lemma events_since_refl (w : World) : events_since w w = [].
Proof. apply events_since_app. rewrite app_nil_r. reflexivity. Qed.

Lemma timestamps_app (l1 l2 : list Event) :
  timestamps (l1 ++ l2) = timestamps l1 ++ timestamps l2.
Proof.
  induction l1 as [|e l1 IH]; simpl; [reflexivity|].
  destruct e; simpl; rewrite IH; reflexivity.
Qed.

Lemma tensors_created_app (l1 l2 : list Event) :
  tensors_created (l1 ++ l2) = tensors_created l1 ++ tensors_created l2.
Proof.
  induction l1 as [|e l1 IH]; simpl; [reflexivity|].
  destruct e; simpl; rewrite IH; reflexivity.
Qed.

Lemma engines_created_app (l1 l2 : list Event) :
  engines_created (l1 ++ l2) = engines_created l1 ++ engines_created l2.
Proof.
  induction l1 as [|e l1 IH]; simpl; [reflexivity|].
  destruct e; simpl; rewrite IH; reflexivity.
Qed.

Lemma output_dims_queries_app (l1 l2 : list Event) :
  output_dims_queries (l1 ++ l2) = output_dims_queries l1 ++ output_dims_queries l2.
Proof.
  induction l1 as [|e l1 IH]; simpl; [reflexivity|].
  destruct e; simpl; rewrite IH; reflexivity.
Qed.

Section SubmitRuns.

Variables (id : nat) (op : ConvOp) (a b c : Tensor).

Lemma timestamps_submits (k : nat) : timestamps (repeat (EvSubmit id op a b c) k) = [].
Proof. induction k; simpl; auto. Qed.

Lemma tensors_created_submits (k : nat) : tensors_created (repeat (EvSubmit id op a b c) k) = [].
Proof. induction k; simpl; auto. Qed.

Lemma engines_created_submits (k : nat) : engines_created (repeat (EvSubmit id op a b c) k) = [].
Proof. induction k; simpl; auto. Qed.

Lemma output_dims_queries_submits (k : nat) : output_dims_queries (repeat (EvSubmit id op a b c) k) = [].
Proof. induction k; simpl; auto. Qed.

Lemma uses_only_engine_submits (k : nat) : uses_only_engine id (repeat (EvSubmit id op a b c) k) = true.
Proof.
  induction k as [|k IH]; simpl; [reflexivity|].
  rewrite Nat.eqb_refl. exact IH.
Qed.

End SubmitRuns.

Lemma uses_only_engine_app (id : nat) (l1 l2 : list Event) :
  uses_only_engine id (l1 ++ l2) = uses_only_engine id l1 && uses_only_engine id l2.
Proof. apply forallb_app. Qed.

(** ** Execution of the loop and of the catalog lookup *)

Lemma conv_submit_eq (op : ConvOp) (conv : CudnnConv) (a b c : Tensor) (st : State) :
  conv_submit op conv a b c st =
  (Ok tt, mkState (this st) (log (EvSubmit (conv_id conv) op a b c) (world st))).
Proof. reflexivity. Qed.

Lemma for_range_submit (k : nat) :
  forall (i : Z) (op : ConvOp) (conv : CudnnConv) (a b c : Tensor) (st : State),
  for_range k i (fun _ => conv_submit op conv a b c) st =
  (Ok tt,
   mkState (this st)
     (mkWorld (trace (world st) ++ repeat (EvSubmit (conv_id conv) op a b c) k)
              (clock (world st)) (clock_reads (world st)) (conv_count (world st))
              (gen_count (world st)) (rng_draws (world st))
              (cudaFree_status (world st)) (curandCreate_status (world st)))).
Proof.
  induction k as [|k IH]; intros i op conv a b c [d w]; simpl.
  - unfold ret. rewrite app_nil_r. destruct w; reflexivity.
  - unfold bind. rewrite conv_submit_eq, IH. unfold log. simpl.
    rewrite <- app_assoc. reflexivity.
Qed.

Lemma ProblemSet_get_out_of_range (ps : CudnnConvProblemSet) (i : Z) :
  i < 0 \/ Z.of_nat (length ps) <= i -> ProblemSet_get ps i = Raise IndexError.
Proof.
  intros Hi. unfold ProblemSet_get.
  destruct (0 <=? i) eqn:E1; destruct (i <? Z.of_nat (length ps)) eqn:E2;
    simpl; try reflexivity.
  apply Z.leb_le in E1. apply Z.ltb_lt in E2. lia.
Qed.

Lemma ProblemSet_get_cases (ps : CudnnConvProblemSet) (i : Z) :
  (exists p, ProblemSet_get ps i = Ok p) \/ ProblemSet_get ps i = Raise IndexError.
Proof.
  unfold ProblemSet_get.
  destruct ((0 <=? i) && (i <? Z.of_nat (length ps))); [|right; reflexivity].
  destruct (nth_error ps (Z.to_nat i)) as [p|]; [left; eauto | right; reflexivity].
Qed.

Lemma ProblemSet_get_in_range (ps : CudnnConvProblemSet) (i : Z) :
  0 <= i < Z.of_nat (length ps) -> exists p, ProblemSet_get ps i = Ok p.
Proof.
  intros Hi. unfold ProblemSet_get.
  destruct (0 <=? i) eqn:E1; [|apply Z.leb_gt in E1; lia].
  destruct (i <? Z.of_nat (length ps)) eqn:E2; [|apply Z.ltb_ge in E2; lia].
  simpl. destruct (nth_error ps (Z.to_nat i)) as [p|] eqn:E; [eauto|].
  apply nth_error_None in E. lia.
Qed.

(** ** Execution of the measurement routines *)

Section Execution.

Context `{ConvEngine}.

Ltac run_routine :=
  unfold for_int_lt, conv_get_output_dims, TensorCreate_zeros,
    cudaDeviceSynchronize;
  unfold emit, TensorCreate_rand, steady_clock_now, self, ret, of_outcome, log;
  unfold bind;
  cbn [this world trace clock clock_reads conv_count gen_count rng_draws
       cudaFree_status curandCreate_status];
  rewrite conv_submit_eq;
  cbn [this world];
  rewrite for_range_submit;
  unfold log;
  cbn [this world trace clock clock_reads conv_count gen_count rng_draws
       cudaFree_status curandCreate_status];
  rewrite <- !app_assoc; reflexivity.

Lemma forward_exec (conv : CudnnConv) (d : CudnnConvDriver) (w : World) :
  let filter := mkTensor [r_ d; s_ d; c_ d; k_ d]
                  (FillRandom (curand_gen_ d) (rng_draws w)) in
  let input := mkTensor [w_ d; h_ d; c_ d; n_ d]
                 (FillRandom (curand_gen_ d) (S (rng_draws w))) in
  let output := mkTensor (get_output_dims conv) FillZeros in
  let sub := EvSubmit (conv_id conv) OpForward input filter output in
  let t0 := clock w (clock_reads w) in
  let t1 := clock w (S (clock_reads w)) in
  forward conv (mkState d w) =
  (average_micros t0 t1 (num_repeats_ d),
   mkState d
     (mkWorld
        (trace w
           ++ [EvTensorCreate filter; EvTensorCreate input;
               EvOutputDims (conv_id conv); EvTensorCreate output;
               sub; EvDeviceSynchronize; EvClockNow t0]
           ++ repeat sub (Z.to_nat (num_repeats_ d))
           ++ [EvDeviceSynchronize; EvClockNow t1])
        (clock w) (S (S (clock_reads w))) (conv_count w) (gen_count w)
        (S (S (rng_draws w))) (cudaFree_status w) (curandCreate_status w))).
Proof. intros. subst filter input output sub t0 t1. unfold forward. run_routine. Qed.

Lemma backwardFilter_exec (conv : CudnnConv) (d : CudnnConvDriver) (w : World) :
  let input := mkTensor [w_ d; h_ d; c_ d; n_ d]
                 (FillRandom (curand_gen_ d) (rng_draws w)) in
  let delta := mkTensor (get_output_dims conv)
                 (FillRandom (curand_gen_ d) (S (rng_draws w))) in
  let dW := mkTensor [r_ d; s_ d; c_ d; k_ d] FillZeros in
  let sub := EvSubmit (conv_id conv) OpBackwardFilter input delta dW in
  let t0 := clock w (clock_reads w) in
  let t1 := clock w (S (clock_reads w)) in
  backwardFilter conv (mkState d w) =
  (average_micros t0 t1 (num_repeats_ d),
   mkState d
     (mkWorld
        (trace w
           ++ [EvTensorCreate input; EvOutputDims (conv_id conv);
               EvTensorCreate delta; EvTensorCreate dW;
               sub; EvDeviceSynchronize; EvClockNow t0]
           ++ repeat sub (Z.to_nat (num_repeats_ d))
           ++ [EvDeviceSynchronize; EvClockNow t1])
        (clock w) (S (S (clock_reads w))) (conv_count w) (gen_count w)
        (S (S (rng_draws w))) (cudaFree_status w) (curandCreate_status w))).
Proof.
  intros. subst input delta dW sub t0 t1. unfold backwardFilter. run_routine.
Qed.

Lemma backwardData_exec (conv : CudnnConv) (d : CudnnConvDriver) (w : World) :
  let filter := mkTensor [r_ d; s_ d; c_ d; k_ d]
                  (FillRandom (curand_gen_ d) (rng_draws w)) in
  let delta := mkTensor (get_output_dims conv)
                 (FillRandom (curand_gen_ d) (S (rng_draws w))) in
  let dX := mkTensor [w_ d; h_ d; c_ d; n_ d] FillZeros in
  let sub := EvSubmit (conv_id conv) OpBackwardData filter delta dX in
  let t0 := clock w (clock_reads w) in
  let t1 := clock w (S (clock_reads w)) in
  backwardData conv (mkState d w) =
  (average_micros t0 t1 (num_repeats_ d),
   mkState d
     (mkWorld
        (trace w
           ++ [EvTensorCreate filter; EvOutputDims (conv_id conv);
               EvTensorCreate delta; EvTensorCreate dX;
               sub; EvDeviceSynchronize; EvClockNow t0]
           ++ repeat sub (Z.to_nat (num_repeats_ d))
           ++ [EvDeviceSynchronize; EvClockNow t1])
        (clock w) (S (S (clock_reads w))) (conv_count w) (gen_count w)
        (S (S (rng_draws w))) (cudaFree_status w) (curandCreate_status w))).
Proof.
  intros. subst filter delta dX sub t0 t1. unfold backwardData. run_routine.
Qed.

(** *** [createCudnnConv] and the dispatch in [run] *)

Lemma createCudnnConv_exec (d : CudnnConvDriver) (w : World) (idx dev : Z)
    (p : ConvProblem) :
  ProblemSet_get (problems_ d) idx = Ok p ->
  let conv := mkCudnnConv (conv_count w) p dev in
  createCudnnConv idx dev (mkState d w) =
  (Ok conv,
   mkState (with_shape d p)
     (mkWorld (trace w ++ [EvConvCreate conv]) (clock w) (clock_reads w)
              (S (conv_count w)) (gen_count w) (rng_draws w)
              (cudaFree_status w) (curandCreate_status w))).
Proof.
  intros Hget conv. subst conv.
  destruct p as [[[[[[[[[[pw ph] pc] pn] pk] pr] ps] ppw] pph] pws] phs].
  unfold createCudnnConv, bind, self, of_outcome. cbn [this].
  rewrite Hget. reflexivity.
Qed.

Lemma createCudnnConv_raise (d : CudnnConvDriver) (w : World) (idx dev : Z)
    (f : Fault) :
  ProblemSet_get (problems_ d) idx = Raise f ->
  createCudnnConv idx dev (mkState d w) = (Raise f, mkState d w).
Proof.
  intros Hget. unfold createCudnnConv, bind, self, of_outcome. cbn [this].
  rewrite Hget. reflexivity.
Qed.

Lemma with_shape_config (d : CudnnConvDriver) (p : ConvProblem) :
  config (with_shape d p) = config d.
Proof.
  destruct p as [[[[[[[[[[pw ph] pc] pn] pk] pr] ps] ppw] pph] pws] phs].
  reflexivity.
Qed.

Lemma with_shape_method (d : CudnnConvDriver) (p : ConvProblem) :
  method_ (with_shape d p) = method_ d.
Proof. pose proof (with_shape_config d p) as E. unfold config in E. congruence. Qed.

(** [run] when the device list is empty: the subscript is out of bounds. *)
Lemma run_no_device (d : CudnnConvDriver) (w : World) (idx : Z) :
  gpus_ d = [] ->
  run idx (mkState d w) = (Raise UB_vector_subscript, mkState d w).
Proof.
  intros Hg. unfold run, bind, self, vector_subscript. cbn [this].
  rewrite Hg. reflexivity.
Qed.

(** [run] when the catalog lookup throws. *)
Lemma run_lookup_raise (d : CudnnConvDriver) (w : World) (idx dev : Z) (f : Fault) :
  nth_error (gpus_ d) 0 = Some dev ->
  ProblemSet_get (problems_ d) idx = Raise f ->
  run idx (mkState d w) = (Raise f, mkState d w).
Proof.
  intros Hdev Hget. unfold run. unfold bind at 1 2. unfold self at 1.
  cbn [this]. unfold vector_subscript. rewrite Hdev. unfold ret at 1.
  unfold bind. rewrite (createCudnnConv_raise d w idx dev f Hget). reflexivity.
Qed.

(** [run] up to the [switch]: the device is read, the catalog entry is
    unpacked into the shape members, the engine is constructed. *)
Lemma run_dispatch (d : CudnnConvDriver) (w : World) (idx dev : Z) (p : ConvProblem) :
  nth_error (gpus_ d) 0 = Some dev ->
  ProblemSet_get (problems_ d) idx = Ok p ->
  let conv := mkCudnnConv (conv_count w) p dev in
  let st1 := mkState (with_shape d p)
               (mkWorld (trace w ++ [EvConvCreate conv]) (clock w) (clock_reads w)
                        (S (conv_count w)) (gen_count w) (rng_draws w)
                        (cudaFree_status w) (curandCreate_status w)) in
  run idx (mkState d w) =
  if method_ d =? FORWARD then
    (conv_init OpForward conv ;; forward conv) st1
  else if method_ d =? BACKWARD_DATA then
    (conv_init OpBackwardData conv ;; backwardData conv) st1
  else if method_ d =? BACKWARD_FILTER then
    (conv_init OpBackwardFilter conv ;; backwardFilter conv) st1
  else (Ok 0, st1).
Proof.
  intros Hdev Hget conv st1. subst conv st1.
  unfold run. unfold bind at 1 2. unfold self at 1.
  cbn [this]. unfold vector_subscript. rewrite Hdev. unfold ret at 1.
  unfold bind at 1. rewrite (createCudnnConv_exec d w idx dev p Hget).
  unfold bind at 1. unfold self at 1. cbn [this].
  rewrite with_shape_method.
  destruct (method_ d =? FORWARD); [reflexivity|].
  destruct (method_ d =? BACKWARD_DATA); [reflexivity|].
  destruct (method_ d =? BACKWARD_FILTER); reflexivity.
Qed.

Lemma run_forward_exec (d : CudnnConvDriver) (w : World) (idx dev : Z)
    (pw ph pc pn pk pr ps ppw pph pws phs : Z) :
  let p : ConvProblem := (pw, ph, pc, pn, pk, pr, ps, ppw, pph, pws, phs) in
  method_ d = FORWARD ->
  nth_error (gpus_ d) 0 = Some dev ->
  ProblemSet_get (problems_ d) idx = Ok p ->
  let id := conv_count w in
  let conv := mkCudnnConv id p dev in
  let g := curand_gen_ d in
  let filter := mkTensor [pr; ps; pc; pk] (FillRandom g (rng_draws w)) in
  let input := mkTensor [pw; ph; pc; pn] (FillRandom g (S (rng_draws w))) in
  let output := mkTensor (get_output_dims conv) FillZeros in
  let sub := EvSubmit id OpForward input filter output in
  let t0 := clock w (clock_reads w) in
  let t1 := clock w (S (clock_reads w)) in
  run idx (mkState d w) =
  (average_micros t0 t1 (num_repeats_ d),
   mkState (with_shape d p)
     (mkWorld
        (trace w
           ++ [EvConvCreate conv; EvConvInit id OpForward;
               EvTensorCreate filter; EvTensorCreate input; EvOutputDims id;
               EvTensorCreate output;
               sub; EvDeviceSynchronize; EvClockNow t0]
           ++ repeat sub (Z.to_nat (num_repeats_ d))
           ++ [EvDeviceSynchronize; EvClockNow t1])
        (clock w) (S (S (clock_reads w))) (S (conv_count w)) (gen_count w)
        (S (S (rng_draws w))) (cudaFree_status w) (curandCreate_status w))).
Proof.
  intros p Hm Hdev Hget. intros. rewrite (run_dispatch d w idx dev p Hdev Hget).
  rewrite Hm. cbn [Z.eqb FORWARD BACKWARD_DATA BACKWARD_FILTER].
  unfold bind, conv_init, emit, log.
  cbn [this world trace clock clock_reads conv_count gen_count rng_draws
       cudaFree_status curandCreate_status conv_id].
  rewrite forward_exec.
  cbn [this world trace clock clock_reads conv_count gen_count rng_draws
       cudaFree_status curandCreate_status conv_id with_shape
       num_repeats_ curand_gen_ k_ c_ r_ s_ n_ w_ h_].
  rewrite <- !app_assoc. reflexivity.
Qed.

Lemma run_backwardData_exec (d : CudnnConvDriver) (w : World) (idx dev : Z)
    (pw ph pc pn pk pr ps ppw pph pws phs : Z) :
  let p : ConvProblem := (pw, ph, pc, pn, pk, pr, ps, ppw, pph, pws, phs) in
  method_ d = BACKWARD_DATA ->
  nth_error (gpus_ d) 0 = Some dev ->
  ProblemSet_get (problems_ d) idx = Ok p ->
  let id := conv_count w in
  let conv := mkCudnnConv id p dev in
  let g := curand_gen_ d in
  let filter := mkTensor [pr; ps; pc; pk] (FillRandom g (rng_draws w)) in
  let delta := mkTensor (get_output_dims conv) (FillRandom g (S (rng_draws w))) in
  let dX := mkTensor [pw; ph; pc; pn] FillZeros in
  let sub := EvSubmit id OpBackwardData filter delta dX in
  let t0 := clock w (clock_reads w) in
  let t1 := clock w (S (clock_reads w)) in
  run idx (mkState d w) =
  (average_micros t0 t1 (num_repeats_ d),
   mkState (with_shape d p)
     (mkWorld
        (trace w
           ++ [EvConvCreate conv; EvConvInit id OpBackwardData;
               EvTensorCreate filter; EvOutputDims id; EvTensorCreate delta;
               EvTensorCreate dX;
               sub; EvDeviceSynchronize; EvClockNow t0]
           ++ repeat sub (Z.to_nat (num_repeats_ d))
           ++ [EvDeviceSynchronize; EvClockNow t1])
        (clock w) (S (S (clock_reads w))) (S (conv_count w)) (gen_count w)
        (S (S (rng_draws w))) (cudaFree_status w) (curandCreate_status w))).
Proof.
  intros p Hm Hdev Hget. intros. rewrite (run_dispatch d w idx dev p Hdev Hget).
  rewrite Hm. cbn [Z.eqb FORWARD BACKWARD_DATA BACKWARD_FILTER].
  unfold bind, conv_init, emit, log.
  cbn [this world trace clock clock_reads conv_count gen_count rng_draws
       cudaFree_status curandCreate_status conv_id].
  rewrite backwardData_exec.
  cbn [this world trace clock clock_reads conv_count gen_count rng_draws
       cudaFree_status curandCreate_status conv_id with_shape
       num_repeats_ curand_gen_ k_ c_ r_ s_ n_ w_ h_].
  rewrite <- !app_assoc. reflexivity.
Qed.

Lemma run_backwardFilter_exec (d : CudnnConvDriver) (w : World) (idx dev : Z)
    (pw ph pc pn pk pr ps ppw pph pws phs : Z) :
  let p : ConvProblem := (pw, ph, pc, pn, pk, pr, ps, ppw, pph, pws, phs) in
  method_ d = BACKWARD_FILTER ->
  nth_error (gpus_ d) 0 = Some dev ->
  ProblemSet_get (problems_ d) idx = Ok p ->
  let id := conv_count w in
  let conv := mkCudnnConv id p dev in
  let g := curand_gen_ d in
  let input := mkTensor [pw; ph; pc; pn] (FillRandom g (rng_draws w)) in
  let delta := mkTensor (get_output_dims conv) (FillRandom g (S (rng_draws w))) in
  let dW := mkTensor [pr; ps; pc; pk] FillZeros in
  let sub := EvSubmit id OpBackwardFilter input delta dW in
  let t0 := clock w (clock_reads w) in
  let t1 := clock w (S (clock_reads w)) in
  run idx (mkState d w) =
  (average_micros t0 t1 (num_repeats_ d),
   mkState (with_shape d p)
     (mkWorld
        (trace w
           ++ [EvConvCreate conv; EvConvInit id OpBackwardFilter;
               EvTensorCreate input; EvOutputDims id; EvTensorCreate delta;
               EvTensorCreate dW;
               sub; EvDeviceSynchronize; EvClockNow t0]
           ++ repeat sub (Z.to_nat (num_repeats_ d))
           ++ [EvDeviceSynchronize; EvClockNow t1])
        (clock w) (S (S (clock_reads w))) (S (conv_count w)) (gen_count w)
        (S (S (rng_draws w))) (cudaFree_status w) (curandCreate_status w))).
Proof.
  intros p Hm Hdev Hget. intros. rewrite (run_dispatch d w idx dev p Hdev Hget).
  rewrite Hm. cbn [Z.eqb FORWARD BACKWARD_DATA BACKWARD_FILTER].
  unfold bind, conv_init, emit, log.
  cbn [this world trace clock clock_reads conv_count gen_count rng_draws
       cudaFree_status curandCreate_status conv_id].
  rewrite backwardFilter_exec.
  cbn [this world trace clock clock_reads conv_count gen_count rng_draws
       cudaFree_status curandCreate_status conv_id with_shape
       num_repeats_ curand_gen_ k_ c_ r_ s_ n_ w_ h_].
  rewrite <- !app_assoc. reflexivity.
Qed.

(** [run] for a method value that is none of the three enumerators. *)
Lemma run_unnamed_exec (d : CudnnConvDriver) (w : World) (idx dev : Z) (p : ConvProblem) :
  ~ named_method (method_ d) ->
  nth_error (gpus_ d) 0 = Some dev ->
  ProblemSet_get (problems_ d) idx = Ok p ->
  run idx (mkState d w) =
  (Ok 0,
   mkState (with_shape d p)
     (mkWorld (trace w ++ [EvConvCreate (mkCudnnConv (conv_count w) p dev)])
              (clock w) (clock_reads w) (S (conv_count w)) (gen_count w)
              (rng_draws w) (cudaFree_status w) (curandCreate_status w))).
Proof.
  intros Hm Hdev Hget. rewrite (run_dispatch d w idx dev p Hdev Hget).
  unfold named_method in Hm.
  destruct (Z.eqb_spec (method_ d) FORWARD); [tauto|].
  destruct (Z.eqb_spec (method_ d) BACKWARD_DATA); [tauto|].
  destruct (Z.eqb_spec (method_ d) BACKWARD_FILTER); [tauto|].
  reflexivity.
Qed.

(** What the three measured paths of [run] have in common. *)
Lemma run_measured (d : CudnnConvDriver) (w : World) (idx dev : Z) (p : ConvProblem) :
  named_method (method_ d) ->
  nth_error (gpus_ d) 0 = Some dev ->
  ProblemSet_get (problems_ d) idx = Ok p ->
  exists (allocs : list Event) (a b c : Tensor),
    let id := conv_count w in
    let sub := EvSubmit id (op_of_method (method_ d)) a b c in
    let t0 := clock w (clock_reads w) in
    let t1 := clock w (S (clock_reads w)) in
    run idx (mkState d w) =
    (average_micros t0 t1 (num_repeats_ d),
     mkState (with_shape d p)
       (mkWorld
          (trace w
             ++ [EvConvCreate (mkCudnnConv id p dev);
                 EvConvInit id (op_of_method (method_ d))]
             ++ allocs
             ++ [sub; EvDeviceSynchronize; EvClockNow t0]
             ++ repeat sub (Z.to_nat (num_repeats_ d))
             ++ [EvDeviceSynchronize; EvClockNow t1])
          (clock w) (S (S (clock_reads w))) (S (conv_count w)) (gen_count w)
          (S (S (rng_draws w))) (cudaFree_status w) (curandCreate_status w)))
    /\ timing_events allocs = []
    /\ filter is_barrier allocs = []
    /\ filter is_submit allocs = []
    /\ timestamps allocs = []
    /\ engines_created allocs = []
    /\ uses_only_engine id allocs = true.
Proof.
  intros Hm Hdev Hget.
  destruct p as [[[[[[[[[[pw ph] pc] pn] pk] pr] ps] ppw] pph] pws] phs].
  destruct Hm as [Hm|[Hm|Hm]].
  - pose proof (run_forward_exec d w idx dev pw ph pc pn pk pr ps ppw pph pws phs
                  Hm Hdev Hget) as E.
    cbv zeta in E. rewrite Hm. cbn [op_of_method Z.eqb FORWARD].
    eexists [_; _; _; _], _, _, _.
    split; [exact E|].
    cbn. rewrite Nat.eqb_refl. repeat split; reflexivity.
  - pose proof (run_backwardData_exec d w idx dev pw ph pc pn pk pr ps ppw pph pws phs
                  Hm Hdev Hget) as E.
    cbv zeta in E. rewrite Hm. cbn [op_of_method Z.eqb FORWARD BACKWARD_DATA].
    eexists [_; _; _; _], _, _, _.
    split; [exact E|].
    cbn. rewrite Nat.eqb_refl. repeat split; reflexivity.
  - pose proof (run_backwardFilter_exec d w idx dev pw ph pc pn pk pr ps ppw pph pws phs
                  Hm Hdev Hget) as E.
    cbv zeta in E. rewrite Hm.
    cbn [op_of_method Z.eqb FORWARD BACKWARD_DATA BACKWARD_FILTER].
    eexists [_; _; _; _], _, _, _.
    split; [exact E|].
    cbn. rewrite Nat.eqb_refl. repeat split; reflexivity.
Qed.

End Execution.

(** ** The reduction *)

Lemma static_cast_int_in_range (x : spec_float) (z : Z) :
  Double.trunc x = Some z -> INT_MIN <= z <= INT_MAX -> static_cast_int x = Ok z.
Proof.
  intros Hx Hz. unfold static_cast_int. rewrite Hx.
  destruct (INT_MIN <=? z) eqn:E1; [|apply Z.leb_gt in E1; lia].
  destruct (z <=? INT_MAX) eqn:E2; [|apply Z.leb_gt in E2; lia].
  reflexivity.
Qed.

Lemma average_micros_eq (start stop n : Z) :
  INT64_MIN <= stop - start <= INT64_MAX ->
  average_micros start stop n =
  static_cast_int (Double.div (duration_micros (stop - start)) (Double.of_Z n)).
Proof.
  intros Hd. unfold average_micros, time_point_diff.
  destruct (INT64_MIN <=? stop - start) eqn:E1; [|apply Z.leb_gt in E1; lia].
  destruct (stop - start <=? INT64_MAX) eqn:E2; [|apply Z.leb_gt in E2; lia].
  reflexivity.
Qed.

(** The faults the reduction can end in: an overflowing subtraction of the
    timestamps and a quotient that no [int] represents. *)
Lemma average_micros_outcomes (start stop n : Z) :
  (exists v, average_micros start stop n = Ok v)
  \/ average_micros start stop n = Raise UB_signed_overflow
  \/ average_micros start stop n = Raise UB_float_to_int.
Proof.
  unfold average_micros, time_point_diff.
  destruct ((INT64_MIN <=? stop - start) && (stop - start <=? INT64_MAX));
    cbn [bind_outcome]; [|tauto].
  unfold static_cast_int.
  destruct (Double.trunc _) as [z|]; [|tauto].
  destruct ((INT_MIN <=? z) && (z <=? INT_MAX)); [left; eauto | tauto].
Qed.

(** The reduction in exact arithmetic: for a clock that did not go backward,
    an elapsed time below [2^53] ns, a repeat count that is a positive [int]
    and a quotient that fits an [int], the value is the integer quotient of
    the elapsed nanoseconds by a thousand times the repeat count. *)
Lemma average_micros_exact (start stop n : Z) :
  0 <= stop - start < 2 ^ 53 ->
  1 <= n <= INT_MAX ->
  (stop - start) / (1000 * n) <= INT_MAX ->
  average_micros start stop n = Ok ((stop - start) / (1000 * n)).
Proof.
  intros HT Hn Hmax.
  rewrite average_micros_eq by (unfold INT64_MIN, INT64_MAX; lia).
  assert (Hk0 : 0 <= (stop - start) / (1000 * n)) by (apply Z.div_pos; lia).
  apply static_cast_int_in_range; [|unfold INT_MIN; lia].
  destruct (Z.eq_dec (stop - start) 0) as [E0|E0].
  - rewrite E0. rewrite Z.div_0_l by lia.
    assert (Hz : duration_micros 0 = S754_zero false) by (vm_compute; reflexivity).
    rewrite Hz.
    pose proof (of_Z_positive n ltac:(lia)) as Hp.
    destruct (Double.of_Z n) as [s|[|]| |[|] m e]; simpl in Hp; try discriminate;
      reflexivity.
  - unfold duration_micros. apply quotient_truncates; unfold INT_MAX in Hn; lia.
Qed.

(** ** The claims of the specification *)

Section Claims.

Context `{ConvEngine}.

(** C1.  For each of the three methods and a repeat count of at least one,
    the events of a call of [run] are some set-up events, none of which is a
    submission, a barrier or a timestamp capture, followed by exactly this
    sequence with nothing in between: one warm-up submission, a barrier, the
    start timestamp, [num_repeats_] submissions of the same operation, a
    barrier, the stop timestamp.  There are [1 + num_repeats_] submissions
    and exactly two barriers in the whole call. *)
Theorem run_timing_protocol (d : CudnnConvDriver) (w : World) (idx dev : Z)
    (p : ConvProblem) :
  named_method (method_ d) ->
  1 <= num_repeats_ d ->
  nth_error (gpus_ d) 0 = Some dev ->
  ProblemSet_get (problems_ d) idx = Ok p ->
  let evs := events_since w (world (snd (run idx (mkState d w)))) in
  exists (setup : list Event) (a b c : Tensor),
    let sub := EvSubmit (conv_count w) (op_of_method (method_ d)) a b c in
    let protocol :=
      [sub; EvDeviceSynchronize; EvClockNow (clock w (clock_reads w))]
      ++ repeat sub (Z.to_nat (num_repeats_ d))
      ++ [EvDeviceSynchronize; EvClockNow (clock w (S (clock_reads w)))] in
    evs = setup ++ protocol
    /\ timing_events setup = []
    /\ timing_events evs = protocol
    /\ Z.of_nat (length (filter is_submit evs)) = 1 + num_repeats_ d
    /\ barriers evs = 2%nat.
Proof.
  intros Hm Hn Hdev Hget evs.
  destruct (run_measured d w idx dev p Hm Hdev Hget)
    as (allocs & a & b & c & E & Ht & Hb & Hs & _).
  cbv zeta in E.
  exists ([EvConvCreate (mkCudnnConv (conv_count w) p dev);
           EvConvInit (conv_count w) (op_of_method (method_ d))] ++ allocs), a, b, c.
  subst evs. rewrite E. cbn [snd world].
  erewrite events_since_app by (cbn [trace]; reflexivity).
  unfold timing_events, barriers in *.
  split; [rewrite <- !app_assoc; reflexivity|].
  rewrite !filter_app, Ht, Hb, Hs.
  rewrite (filter_repeat is_timing) by reflexivity.
  rewrite (filter_repeat is_submit) by reflexivity.
  rewrite (filter_repeat_none is_barrier) by reflexivity.
  cbn [filter is_timing is_submit is_barrier is_clock orb app length].
  repeat split.
  rewrite length_app, repeat_length. cbn [length]. lia.
Qed.

(** C2, amended.  For each of the three methods and a repeat count of at
    least one, the two timestamps [run] captures are the clock's next two
    readings, and, provided the stop timestamp is not earlier than the start
    timestamp, the elapsed time is below [2^53] ns (the nanosecond counts
    that convert to [double] exactly, about 104 days) and the truncated
    average fits the [int] that [run] returns, the integer returned is the
    elapsed time in microseconds divided by [num_repeats_], truncated: the
    integer quotient of the elapsed nanoseconds by [1000 * num_repeats_]. *)
Theorem run_returns_truncated_average (d : CudnnConvDriver) (w : World)
    (idx dev : Z) (p : ConvProblem) :
  named_method (method_ d) ->
  1 <= num_repeats_ d <= INT_MAX ->
  nth_error (gpus_ d) 0 = Some dev ->
  ProblemSet_get (problems_ d) idx = Ok p ->
  let result := run idx (mkState d w) in
  let start := clock w (clock_reads w) in
  let stop := clock w (S (clock_reads w)) in
  0 <= stop - start < 2 ^ 53 ->
  (stop - start) / (1000 * num_repeats_ d) <= INT_MAX ->
  timestamps (events_since w (world (snd result))) = [start; stop]
  /\ fst result = Ok ((stop - start) / (1000 * num_repeats_ d)).
Proof.
  intros Hm Hn Hdev Hget result start stop HT Hmax.
  destruct (run_measured d w idx dev p Hm Hdev Hget)
    as (allocs & a & b & c & E & _ & _ & _ & Hts & _).
  cbv zeta in E. subst result. rewrite E. cbn [fst snd world].
  erewrite events_since_app by (cbn [trace]; reflexivity).
  split.
  - rewrite !timestamps_app, Hts, timestamps_submits. reflexivity.
  - apply average_micros_exact; assumption.
Qed.

Lemma named_method_dec (m : CudnnConvMethod) :
  {named_method m} + {~ named_method m}.
Proof.
  unfold named_method.
  destruct (Z.eq_dec m FORWARD); [left; tauto|].
  destruct (Z.eq_dec m BACKWARD_DATA); [left; tauto|].
  destruct (Z.eq_dec m BACKWARD_FILTER); [left; tauto|].
  right. tauto.
Qed.

Lemma first_device (gpus : list Z) :
  gpus <> [] -> exists dev, nth_error gpus 0 = Some dev.
Proof. destruct gpus as [|dev rest]; [congruence | intros _; exists dev; reflexivity]. Qed.

(** The driver object after a call of [run]: untouched, or with the shape
    members overwritten by the catalog entry. *)
Lemma run_this_cases (d : CudnnConvDriver) (w : World) (idx : Z) :
  this (snd (run idx (mkState d w))) = d
  \/ exists p, this (snd (run idx (mkState d w))) = with_shape d p.
Proof.
  destruct (gpus_ d) as [|dev rest] eqn:Hg.
  - left. rewrite run_no_device by exact Hg. reflexivity.
  - assert (Hdev : nth_error (gpus_ d) 0 = Some dev) by (rewrite Hg; reflexivity).
    destruct (ProblemSet_get_cases (problems_ d) idx) as [[p Hget]|Hget].
    + right. exists p.
      destruct (named_method_dec (method_ d)) as [Hm|Hm].
      * destruct (run_measured d w idx dev p Hm Hdev Hget)
          as (allocs & a & b & c & E & _).
        cbv zeta in E. rewrite E. reflexivity.
      * rewrite (run_unnamed_exec d w idx dev p Hm Hdev Hget). reflexivity.
    + left. rewrite (run_lookup_raise d w idx dev IndexError Hdev Hget). reflexivity.
Qed.

(** C3.  With an index outside the catalog's range, [run] fails with the
    [IndexError] of the catalog lookup and leaves the driver object and the
    world exactly as they were: no engine has been constructed and no
    buffer allocated.  (The device list is non-empty, as construction
    requires.) *)
Theorem run_index_out_of_range (d : CudnnConvDriver) (w : World) (idx : Z) :
  gpus_ d <> [] ->
  idx < 0 \/ Z.of_nat (length (problems_ d)) <= idx ->
  let result := run idx (mkState d w) in
  fst result = Raise IndexError
  /\ snd result = mkState d w
  /\ engines_created (events_since w (world (snd result))) = []
  /\ tensors_created (events_since w (world (snd result))) = [].
Proof.
  intros Hg Hidx result. subst result.
  destruct (first_device (gpus_ d) Hg) as [dev Hdev].
  rewrite (run_lookup_raise d w idx dev IndexError Hdev
             (ProblemSet_get_out_of_range (problems_ d) idx Hidx)).
  cbn [fst snd world]. rewrite events_since_refl. repeat split.
Qed.

(** C5.  Each measurement routine allocates exactly three buffers, two
    filled from the driver's random generator and one zero-filled, and asks
    the engine for its output shape exactly once.  The buffer shaped by the
    engine's answer is the zero-filled output for FORWARD and the random
    delta for BACKWARD_DATA and BACKWARD_FILTER; the other two are shaped
    [r, s, c, k] and [w, h, c, n] from the resolved catalog entry. *)
Theorem run_allocates_three_buffers (d : CudnnConvDriver) (w : World)
    (idx dev : Z) (pw ph pc pn pk pr ps ppw pph pws phs : Z) :
  let p : ConvProblem := (pw, ph, pc, pn, pk, pr, ps, ppw, pph, pws, phs) in
  nth_error (gpus_ d) 0 = Some dev ->
  ProblemSet_get (problems_ d) idx = Ok p ->
  let evs := events_since w (world (snd (run idx (mkState d w)))) in
  let out_dims := get_output_dims (mkCudnnConv (conv_count w) p dev) in
  let g := curand_gen_ d in
  let k := rng_draws w in
  (method_ d = FORWARD ->
     tensors_created evs =
       [ mkTensor [pr; ps; pc; pk] (FillRandom g k);
         mkTensor [pw; ph; pc; pn] (FillRandom g (S k));
         mkTensor out_dims FillZeros ])
  /\ (method_ d = BACKWARD_DATA ->
     tensors_created evs =
       [ mkTensor [pr; ps; pc; pk] (FillRandom g k);
         mkTensor out_dims (FillRandom g (S k));
         mkTensor [pw; ph; pc; pn] FillZeros ])
  /\ (method_ d = BACKWARD_FILTER ->
     tensors_created evs =
       [ mkTensor [pw; ph; pc; pn] (FillRandom g k);
         mkTensor out_dims (FillRandom g (S k));
         mkTensor [pr; ps; pc; pk] FillZeros ])
  /\ (named_method (method_ d) -> output_dims_queries evs = [conv_count w]).
Proof.
  intros p Hdev Hget evs out_dims g k.
  assert (HF : method_ d = FORWARD ->
               tensors_created evs =
                 [ mkTensor [pr; ps; pc; pk] (FillRandom g k);
                   mkTensor [pw; ph; pc; pn] (FillRandom g (S k));
                   mkTensor out_dims FillZeros ]
               /\ output_dims_queries evs = [conv_count w]).
  { intros Hm. subst evs.
    rewrite (run_forward_exec d w idx dev pw ph pc pn pk pr ps ppw pph pws phs
               Hm Hdev Hget).
    cbn [snd world]. erewrite events_since_app by (cbn [trace]; reflexivity).
    rewrite !tensors_created_app, !output_dims_queries_app,
      tensors_created_submits, output_dims_queries_submits.
    split; reflexivity. }
  assert (HD : method_ d = BACKWARD_DATA ->
               tensors_created evs =
                 [ mkTensor [pr; ps; pc; pk] (FillRandom g k);
                   mkTensor out_dims (FillRandom g (S k));
                   mkTensor [pw; ph; pc; pn] FillZeros ]
               /\ output_dims_queries evs = [conv_count w]).
  { intros Hm. subst evs.
    rewrite (run_backwardData_exec d w idx dev pw ph pc pn pk pr ps ppw pph pws phs
               Hm Hdev Hget).
    cbn [snd world]. erewrite events_since_app by (cbn [trace]; reflexivity).
    rewrite !tensors_created_app, !output_dims_queries_app,
      tensors_created_submits, output_dims_queries_submits.
    split; reflexivity. }
  assert (HW : method_ d = BACKWARD_FILTER ->
               tensors_created evs =
                 [ mkTensor [pw; ph; pc; pn] (FillRandom g k);
                   mkTensor out_dims (FillRandom g (S k));
                   mkTensor [pr; ps; pc; pk] FillZeros ]
               /\ output_dims_queries evs = [conv_count w]).
  { intros Hm. subst evs.
    rewrite (run_backwardFilter_exec d w idx dev pw ph pc pn pk pr ps ppw pph pws phs
               Hm Hdev Hget).
    cbn [snd world]. erewrite events_since_app by (cbn [trace]; reflexivity).
    rewrite !tensors_created_app, !output_dims_queries_app,
      tensors_created_submits, output_dims_queries_submits.
    split; reflexivity. }
  split; [intros Hm; apply (HF Hm)|].
  split; [intros Hm; apply (HD Hm)|].
  split; [intros Hm; apply (HW Hm)|].
  intros [Hm|[Hm|Hm]]; [apply (HF Hm) | apply (HD Hm) | apply (HW Hm)].
Qed.

(** C6.  A call of [run] that returns constructs exactly one engine, from
    the catalog entry at the given index and from the first element of the
    device list.  The engine is new (its identity is the number of engines
    constructed before the call), every engine call made during [run]
    addresses that engine and no other, and the driver object has no member
    that could keep it for a later call. *)
Theorem run_constructs_one_engine (d : CudnnConvDriver) (w : World)
    (idx v : Z) :
  fst (run idx (mkState d w)) = Ok v ->
  let w' := world (snd (run idx (mkState d w))) in
  exists (p : ConvProblem) (dev : Z),
    ProblemSet_get (problems_ d) idx = Ok p
    /\ nth_error (gpus_ d) 0 = Some dev
    /\ engines_created (events_since w w') = [mkCudnnConv (conv_count w) p dev]
    /\ uses_only_engine (conv_count w) (events_since w w') = true
    /\ conv_count w' = S (conv_count w).
Proof.
  intros Hok w'. subst w'.
  destruct (gpus_ d) as [|dev rest] eqn:Hg.
  { rewrite run_no_device in Hok by exact Hg. discriminate. }
  assert (Hdev : nth_error (gpus_ d) 0 = Some dev) by (rewrite Hg; reflexivity).
  rewrite <- Hg.
  destruct (ProblemSet_get_cases (problems_ d) idx) as [[p Hget]|Hget].
  2:{ rewrite (run_lookup_raise d w idx dev IndexError Hdev Hget) in Hok.
      discriminate. }
  exists p, dev. split; [exact Hget|]. split; [exact Hdev|].
  destruct (named_method_dec (method_ d)) as [Hm|Hm].
  - destruct (run_measured d w idx dev p Hm Hdev Hget)
      as (allocs & a & b & c & E & _ & _ & _ & _ & Hec & Hu).
    cbv zeta in E. rewrite E. cbn [snd world conv_count].
    erewrite events_since_app by (cbn [trace]; reflexivity).
    rewrite !engines_created_app, Hec, engines_created_submits.
    rewrite !uses_only_engine_app, Hu, uses_only_engine_submits.
    cbn. rewrite !Nat.eqb_refl. repeat split.
  - rewrite (run_unnamed_exec d w idx dev p Hm Hdev Hget).
    cbn [snd world conv_count].
    erewrite events_since_app by (cbn [trace]; reflexivity).
    cbn. rewrite Nat.eqb_refl. repeat split.
Qed.

(** C7.  Whatever the index and however the call ends, [run] leaves the
    driver's configuration as it was: method, repeat count, device list and
    problem catalog are the same after one call and after two successive
    calls with the same index. *)
Theorem run_preserves_config (st : State) (idx : Z) :
  config (this (snd (run idx st))) = config (this st)
  /\ config (this (snd (run idx (snd (run idx st))))) = config (this st).
Proof.
  assert (Hone : forall st0, config (this (snd (run idx st0))) = config (this st0)).
  { intros [d w]. cbn [this].
    destruct (run_this_cases d w idx) as [E|[p E]]; rewrite E;
      [reflexivity | apply with_shape_config]. }
  split; [apply Hone|].
  rewrite Hone. apply Hone.
Qed.

(** C9.  When the method value is none of the three enumerators, [run]
    still constructs an engine from the resolved catalog entry, and that is
    all it does: the construction is the only event of the call (no plan
    initialisation, no buffer, no submission, no barrier, no timestamp),
    and the call returns 0. *)
Theorem run_unnamed_method (d : CudnnConvDriver) (w : World) (idx dev : Z)
    (p : ConvProblem) :
  ~ named_method (method_ d) ->
  nth_error (gpus_ d) 0 = Some dev ->
  ProblemSet_get (problems_ d) idx = Ok p ->
  let result := run idx (mkState d w) in
  fst result = Ok 0
  /\ events_since w (world (snd result)) =
       [EvConvCreate (mkCudnnConv (conv_count w) p dev)].
Proof.
  intros Hm Hdev Hget result. subst result.
  rewrite (run_unnamed_exec d w idx dev p Hm Hdev Hget).
  cbn [fst snd world]. split; [reflexivity|].
  apply events_since_app. reflexivity.
Qed.


(** C8, amended.  For a valid index and a repeat count of at least one,
    [run] returns a non-negative integer provided the stop timestamp is not
    earlier than the start timestamp, the elapsed time is below [2^53] ns
    (the nanosecond counts that convert to [double] exactly) and the
    truncated average, the integer quotient of the elapsed nanoseconds by
    [1000 * num_repeats_], is at most [INT_MAX]. *)
Theorem run_returns_nonnegative (d : CudnnConvDriver) (w : World)
    (idx dev : Z) (p : ConvProblem) :
  1 <= num_repeats_ d <= INT_MAX ->
  nth_error (gpus_ d) 0 = Some dev ->
  ProblemSet_get (problems_ d) idx = Ok p ->
  let start := clock w (clock_reads w) in
  let stop := clock w (S (clock_reads w)) in
  start <= stop ->
  stop - start < 2 ^ 53 ->
  (stop - start) / (1000 * num_repeats_ d) <= INT_MAX ->
  exists v : Z, fst (run idx (mkState d w)) = Ok v /\ 0 <= v.
Proof.
  intros Hn Hdev Hget start stop Hmono Hfit Hmax.
  destruct (named_method_dec (method_ d)) as [Hm|Hm].
  2:{ exists 0. rewrite (run_unnamed_exec d w idx dev p Hm Hdev Hget).
      split; [reflexivity | lia]. }
  destruct (run_measured d w idx dev p Hm Hdev Hget)
    as (allocs & a & b & c & E & _).
  cbv zeta in E. rewrite E. cbn [fst]. fold start stop.
  exists ((stop - start) / (1000 * num_repeats_ d)). split.
  - apply average_micros_exact; [lia | exact Hn | exact Hmax].
  - apply Z.div_pos; lia.
Qed.

(** The constructor when the generator is created, whatever the status of
    the device-context initialisation. *)
Lemma new_CudnnConvDriver_created (method : CudnnConvMethod)
    (problems : CudnnConvProblemSet) (numRuns : Z) (gpus : list Z)
    (mem : ConvProblem) (w : World) :
  curandCreate_status w = CURAND_STATUS_SUCCESS ->
  exists (d : CudnnConvDriver),
    new_CudnnConvDriver method problems numRuns gpus mem w =
    (Ok d,
     mkWorld (trace w ++ [ EvCudaFree (cudaFree_status w);
                           EvCurandCreate (curandCreate_status w);
                           EvCurandSeed (gen_handle (gen_count w)) 42 ])
             (clock w) (clock_reads w) (conv_count w) (S (gen_count w))
             (rng_draws w) (cudaFree_status w) (curandCreate_status w))
    /\ config d = (method, numRuns, gpus, problems)
    /\ curand_gen_ d = gen_handle (gen_count w).
Proof.
  intros Hs.
  destruct mem as [[[[[[[[[[pw ph] pc] pn] pk] pr] ps] ppw] pph] pws] phs].
  unfold new_CudnnConvDriver, CudnnConvDriver_body,
    curandSetPseudoRandomGeneratorSeed, cudaFree_0, curandCreateGenerator,
    set_curand_gen, emit, self, ret, log.
  unfold bind.
  cbn [this world trace clock clock_reads conv_count gen_count rng_draws
       cudaFree_status curandCreate_status].
  rewrite Hs. cbn [Z.eqb CURAND_STATUS_SUCCESS].
  cbn [this world trace clock clock_reads conv_count gen_count rng_draws
       cudaFree_status curandCreate_status snd with_curand_gen curand_gen_
       read_generator ret].
  unfold ret.
  cbn [this world trace clock clock_reads conv_count gen_count rng_draws
       cudaFree_status curandCreate_status].
  eexists. split; [rewrite <- !app_assoc; reflexivity|].
  split; reflexivity.
Qed.



End Claims.

(** * Further properties of the driver *)

(** ** Signs of conversions and quotients *)

Lemma of_Z_sign_neg (z : Z) : z < 0 -> Double.sign (Double.of_Z z) = Some true.
Proof.
  intros Hz. unfold Double.of_Z, binary_normalize.
  destruct z as [|p|p]; try lia.
  unfold binary_round.
  destruct (shl_align p 0 _) as [mz ez].
  apply binary_round_aux_sign. lia.
Qed.

(** The sign bit of a quotient is the exclusive or of the operands' sign
    bits, unless the quotient is NaN. *)
Lemma div_sign_xor (x y : spec_float) (sx sy : bool) :
  Double.sign x = Some sx -> Double.sign y = Some sy ->
  Double.div x y = S754_nan \/ Double.sign (Double.div x y) = Some (xorb sx sy).
Proof.
  intros Hx Hy.
  destruct x as [s1|s1| |s1 mx ex]; destruct y as [s2|s2| |s2 my ey];
    simpl in Hx, Hy; try discriminate;
    injection Hx as ->; injection Hy as ->; simpl; auto.
  right. unfold Double.div, SFdiv.
  pose proof (SFdiv_core_binary_nonneg mx my ex ey) as Hq.
  destruct (SFdiv_core_binary _ _ _ _ _ _) as [[mz ez] lz]. simpl in Hq.
  apply binary_round_aux_sign. exact Hq.
Qed.

Lemma trunc_nonpos (x : spec_float) (z : Z) :
  Double.sign x = Some true -> Double.trunc x = Some z -> z <= 0.
Proof.
  destruct x as [s|s| |s m e]; simpl; intros Hs Hz; try discriminate.
  - injection Hz as <-. lia.
  - injection Hs as ->. injection Hz as <-. simpl.
    pose proof (Z.shiftl_nonneg (Zpos m) e). lia.
Qed.

(** Rounding a positive mantissa in the normal range never yields a zero,
    whatever the sign. *)
Lemma binary_round_aux_not_zero (s : bool) (m e : Z) (l : location) :
  0 < m -> -1021 <= Zdigits2 m + e ->
  Double.is_zero (binary_round_aux Double.prec Double.emax s m e l) = false.
Proof.
  intros Hm Hn. unfold binary_round_aux.
  destruct (shr_fexp_pos m e l Hm Hn) as [H1 H2].
  destruct (shr_fexp Double.prec Double.emax m e l) as [r1 e1].
  simpl fst in *; simpl snd in *.
  pose proof (round_nearest_even_ge (shr_m r1) (loc_of_shr_record r1)) as H3.
  pose proof (Zdigits2_round_nearest_even (shr_m r1) (loc_of_shr_record r1) H1) as H4.
  destruct (shr_fexp_pos (round_nearest_even (shr_m r1) (loc_of_shr_record r1))
              e1 loc_Exact ltac:(lia) ltac:(lia)) as [H5 _].
  destruct (shr_fexp _ _ (round_nearest_even _ _) e1 loc_Exact) as [r2 e2].
  simpl fst in *.
  destruct (shr_m r2) as [|q|q]; try lia.
  destruct (e2 <=? _); reflexivity.
Qed.

(** An integer converts to a zero exactly when it is zero. *)
Lemma of_Z_is_zero (z : Z) : Double.is_zero (Double.of_Z z) = (z =? 0).
Proof.
  destruct z as [|p|p]; [reflexivity| |];
    unfold Double.of_Z, binary_normalize, binary_round;
    pose proof (shl_align_digits p 0 (fexp Double.prec Double.emax (Zpos (digits2_pos p) + 0))) as Hd;
    destruct (shl_align p 0 _) as [mz ez]; simpl fst in Hd; simpl snd in Hd;
    (rewrite binary_round_aux_not_zero; [reflexivity | lia |]);
    rewrite Hd; simpl; lia.
Qed.

(** Division by a zero does not trap: the quotient is an infinity or NaN,
    and has no integer part. *)
Lemma div_by_zero_trunc (x : spec_float) (s : bool) :
  Double.trunc (Double.div x (S754_zero s)) = None.
Proof. destruct x as [sx|sx| |sx mx ex]; reflexivity. Qed.

Lemma div_positive_by_zero (x : spec_float) :
  Double.positive x = true ->
  Double.div x (S754_zero false) = S754_infinity false.
Proof.
  destruct x as [sx|[|]| |[|] mx ex]; simpl; intros Hx; try discriminate;
    reflexivity.
Qed.

(** The microsecond count of a positive duration below [2^53] ns is a
    positive finite number. *)
Lemma duration_micros_positive (ns : Z) :
  0 < ns < 2 ^ 53 -> Double.positive (duration_micros ns) = true.
Proof.
  intros Hns. unfold duration_micros.
  destruct (of_Z_exact ns Hns) as (m & a & -> & Ha & _ & Hm).
  destruct (of_Z_exact 1000 ltac:(lia)) as (m' & a' & E' & Ha' & _ & Hm').
  rewrite E'.
  destruct (SFdiv_canonical m m' (- a) (- a') Hm Hm' ltac:(lia))
    as (mr & c & k & -> & _).
  reflexivity.
Qed.

(** ** The measured paths of [run], buffer by buffer *)

Section Extras.

Context `{ConvEngine}.

(** The events of a measured call, with the three buffers named: [t1] and
    [t2] are filled at random, in this order, [t3] is zero-filled; the
    output-shape query precedes the buffer it shapes. *)
Lemma run_measured_buffers (d : CudnnConvDriver) (w : World) (idx dev : Z)
    (p : ConvProblem) :
  named_method (method_ d) ->
  nth_error (gpus_ d) 0 = Some dev ->
  ProblemSet_get (problems_ d) idx = Ok p ->
  exists (t1 t2 t3 a b c : Tensor) (allocs : list Event),
    let id := conv_count w in
    let op := op_of_method (method_ d) in
    let sub := EvSubmit id op a b c in
    let t0 := clock w (clock_reads w) in
    let t1' := clock w (S (clock_reads w)) in
    run idx (mkState d w) =
    (average_micros t0 t1' (num_repeats_ d),
     mkState (with_shape d p)
       (mkWorld
          (trace w
             ++ [EvConvCreate (mkCudnnConv id p dev); EvConvInit id op]
             ++ allocs
             ++ [sub; EvDeviceSynchronize; EvClockNow t0]
             ++ repeat sub (Z.to_nat (num_repeats_ d))
             ++ [EvDeviceSynchronize; EvClockNow t1'])
          (clock w) (S (S (clock_reads w))) (S (conv_count w)) (gen_count w)
          (S (S (rng_draws w))) (cudaFree_status w) (curandCreate_status w)))
    /\ (allocs = [EvTensorCreate t1; EvTensorCreate t2; EvOutputDims id;
                  EvTensorCreate t3]
        \/ allocs = [EvTensorCreate t1; EvOutputDims id; EvTensorCreate t2;
                     EvTensorCreate t3])
    /\ t_fill t1 = FillRandom (curand_gen_ d) (rng_draws w)
    /\ t_fill t2 = FillRandom (curand_gen_ d) (S (rng_draws w))
    /\ t_fill t3 = FillZeros
    /\ ((a, b, c) = (t2, t1, t3) \/ (a, b, c) = (t1, t2, t3)).
Proof.
  intros Hm Hdev Hget.
  destruct p as [[[[[[[[[[pw ph] pc] pn] pk] pr] ps] ppw] pph] pws] phs].
  destruct Hm as [Hm|[Hm|Hm]].
  - pose proof (run_forward_exec d w idx dev pw ph pc pn pk pr ps ppw pph pws phs
                  Hm Hdev Hget) as E.
    cbv zeta in E. rewrite Hm. cbn [op_of_method Z.eqb FORWARD].
    eexists _, _, _, _, _, _, [_; _; _; _].
    split; [exact E|].
    split; [left; reflexivity|]. repeat split. left. reflexivity.
  - pose proof (run_backwardData_exec d w idx dev pw ph pc pn pk pr ps ppw pph pws phs
                  Hm Hdev Hget) as E.
    cbv zeta in E. rewrite Hm. cbn [op_of_method Z.eqb FORWARD BACKWARD_DATA].
    eexists _, _, _, _, _, _, [_; _; _; _].
    split; [exact E|].
    split; [right; reflexivity|]. repeat split. right. reflexivity.
  - pose proof (run_backwardFilter_exec d w idx dev pw ph pc pn pk pr ps ppw pph pws phs
                  Hm Hdev Hget) as E.
    cbv zeta in E. rewrite Hm.
    cbn [op_of_method Z.eqb FORWARD BACKWARD_DATA BACKWARD_FILTER].
    eexists _, _, _, _, _, _, [_; _; _; _].
    split; [exact E|].
    split; [right; reflexivity|]. repeat split. right. reflexivity.
Qed.

(** ** Faults and edge cases of [run] *)

(** X1.  [run] performs the out-of-bounds subscript [gpus_[0]] exactly when
    the device list is empty, whatever the index, the method and the repeat
    count; it does so before the catalog is consulted, so that nothing has
    been recorded and the driver object is as it was. *)
Theorem run_subscript_fault_iff (d : CudnnConvDriver) (w : World) (idx : Z) :
  (fst (run idx (mkState d w)) = Raise UB_vector_subscript <-> gpus_ d = [])
  /\ (gpus_ d = [] -> snd (run idx (mkState d w)) = mkState d w).
Proof.
  split.
  - split.
    + intros Hf. destruct (gpus_ d) as [|dev rest] eqn:Hg; [reflexivity|].
      exfalso.
      assert (Hdev : nth_error (gpus_ d) 0 = Some dev) by (rewrite Hg; reflexivity).
      destruct (ProblemSet_get_cases (problems_ d) idx) as [[p Hget]|Hget].
      * destruct (named_method_dec (method_ d)) as [Hm|Hm].
        -- destruct (run_measured d w idx dev p Hm Hdev Hget)
             as (allocs & a & b & c & E & _).
           cbv zeta in E. rewrite E in Hf. cbn [fst] in Hf.
           destruct (average_micros_outcomes (clock w (clock_reads w))
                       (clock w (S (clock_reads w))) (num_repeats_ d))
             as [[v Hv]|[Hv|Hv]]; rewrite Hv in Hf; discriminate.
        -- rewrite (run_unnamed_exec d w idx dev p Hm Hdev Hget) in Hf.
           discriminate.
      * rewrite (run_lookup_raise d w idx dev IndexError Hdev Hget) in Hf.
        discriminate.
    + intros Hg. rewrite run_no_device by exact Hg. reflexivity.
  - intros Hg. rewrite run_no_device by exact Hg. reflexivity.
Qed.

(** X2.  The divisor of the reduction, [num_repeats_] converted to
    [double], is a zero exactly when the repeat count is zero.  In that case,
    for a named method, a valid index and a timestamp difference within 64
    bits, the whole protocol runs: one submission (the warm-up), two barriers
    and both timestamps.  The reduction then divides the elapsed microseconds
    by [0.0], an IEEE-754 division that does not trap: the quotient is NaN
    when the two timestamps are equal and plus infinity when the elapsed time
    is positive (and below [2^53] ns); in every case it has no integer part,
    so that the conversion to [int] that ends [run] is undefined. *)
Theorem run_zero_repeats (d : CudnnConvDriver) (w : World) (idx dev : Z)
    (p : ConvProblem) :
  named_method (method_ d) ->
  nth_error (gpus_ d) 0 = Some dev ->
  ProblemSet_get (problems_ d) idx = Ok p ->
  let start := clock w (clock_reads w) in
  let stop := clock w (S (clock_reads w)) in
  INT64_MIN <= stop - start <= INT64_MAX ->
  let result := run idx (mkState d w) in
  let evs := events_since w (world (snd result)) in
  let quotient :=
    Double.div (Double.div (Double.of_Z (stop - start)) (Double.of_Z 1000))
               (Double.of_Z (num_repeats_ d)) in
  (Double.is_zero (Double.of_Z (num_repeats_ d)) = true <-> num_repeats_ d = 0)
  /\ (num_repeats_ d = 0 ->
      length (filter is_submit evs) = 1%nat
      /\ barriers evs = 2%nat
      /\ timestamps evs = [start; stop]
      /\ (stop = start -> quotient = S754_nan)
      /\ (0 < stop - start < 2 ^ 53 -> quotient = S754_infinity false)
      /\ Double.trunc quotient = None
      /\ fst result = Raise UB_float_to_int).
Proof.
  intros Hm Hdev Hget start stop Hd result evs quotient.
  split.
  { rewrite of_Z_is_zero. apply Z.eqb_eq. }
  intros Hz.
  destruct (run_measured d w idx dev p Hm Hdev Hget)
    as (allocs & a & b & c & E & _ & Hb & Hs & Hts & _).
  cbv zeta in E. subst result evs. rewrite E. cbn [fst snd world].
  erewrite events_since_app by (cbn [trace]; reflexivity).
  fold start stop.
  assert (Hq : Double.trunc quotient = None).
  { subst quotient. rewrite Hz. apply (div_by_zero_trunc _ false). }
  split; [|split; [|split; [|split; [|split; [|split]]]]].
  - rewrite Hz. change (Z.to_nat 0) with 0%nat. cbn [repeat].
    rewrite !filter_app, Hs. reflexivity.
  - rewrite Hz. change (Z.to_nat 0) with 0%nat. cbn [repeat].
    unfold barriers. rewrite !filter_app, Hb. reflexivity.
  - rewrite Hz. change (Z.to_nat 0) with 0%nat. cbn [repeat].
    rewrite !timestamps_app, Hts. reflexivity.
  - intros Heq. subst quotient. rewrite Hz, Heq, Z.sub_diag. reflexivity.
  - intros Hpos. subst quotient. rewrite Hz.
    apply (div_positive_by_zero _ (duration_micros_positive _ Hpos)).
  - exact Hq.
  - rewrite (average_micros_eq start stop (num_repeats_ d) Hd).
    unfold static_cast_int, duration_micros. fold quotient. rewrite Hq.
    reflexivity.
Qed.

(** X3.  The constructor accepts any [int] as repeat count.  With a negative
    one, a named method and a valid index, the timed loop does not run, so
    the warm-up is the only submission, and with a monotonic clock the value
    [run] returns is never positive: the elapsed time is divided by the
    negative count.  [run] returns the truncated quotient whenever it is at
    least [INT_MIN]. *)
Theorem run_negative_repeats (d : CudnnConvDriver) (w : World) (idx dev : Z)
    (p : ConvProblem) :
  named_method (method_ d) ->
  nth_error (gpus_ d) 0 = Some dev ->
  ProblemSet_get (problems_ d) idx = Ok p ->
  num_repeats_ d < 0 ->
  let start := clock w (clock_reads w) in
  let stop := clock w (S (clock_reads w)) in
  start <= stop ->
  stop - start <= INT64_MAX ->
  let result := run idx (mkState d w) in
  let evs := events_since w (world (snd result)) in
  let quotient :=
    Double.div (Double.div (Double.of_Z (stop - start)) (Double.of_Z 1000))
               (Double.of_Z (num_repeats_ d)) in
  length (filter is_submit evs) = 1%nat
  /\ (forall v : Z, fst result = Ok v -> v <= 0)
  /\ (forall z : Z, Double.trunc quotient = Some z -> INT_MIN <= z ->
                    fst result = Ok z).
Proof.
  intros Hm Hdev Hget Hn start stop Hmono Hfit result evs quotient.
  destruct (run_measured d w idx dev p Hm Hdev Hget)
    as (allocs & a & b & c & E & _ & _ & Hs & _).
  cbv zeta in E. subst result evs. rewrite E. cbn [fst snd world].
  erewrite events_since_app by (cbn [trace]; reflexivity).
  fold start stop.
  assert (Hrounds : Z.to_nat (num_repeats_ d) = 0%nat) by lia.
  assert (Havg : average_micros start stop (num_repeats_ d) = static_cast_int quotient).
  { rewrite average_micros_eq by (unfold INT64_MIN; lia). reflexivity. }
  assert (Hsign : forall z, Double.trunc quotient = Some z -> z <= 0).
  { intros z Hz.
    assert (Hq : quotient = S754_nan \/ Double.sign quotient = Some true).
    { subst quotient.
      destruct (div_sign_xor (Double.of_Z (stop - start)) (Double.of_Z 1000)
                  false false (of_Z_sign (stop - start) ltac:(lia))
                  (of_Z_sign 1000 ltac:(lia)))
        as [Eq|Eq].
      - left. rewrite Eq. reflexivity.
      - apply (div_sign_xor _ _ false true Eq). apply of_Z_sign_neg, Hn. }
    destruct Hq as [Hq|Hq].
    - rewrite Hq in Hz. discriminate.
    - exact (trunc_nonpos _ z Hq Hz). }
  split; [|split].
  - rewrite Hrounds. cbn [repeat]. rewrite !filter_app, Hs. reflexivity.
  - intros v Hv. rewrite Havg in Hv. unfold static_cast_int in Hv.
    destruct (Double.trunc quotient) as [z|] eqn:Hz; [|discriminate].
    destruct ((INT_MIN <=? z) && (z <=? INT_MAX)); [|discriminate].
    injection Hv as <-. apply Hsign. reflexivity.
  - intros z Hz Hmin. rewrite Havg.
    apply static_cast_int_in_range; [exact Hz|].
    pose proof (Hsign z Hz). unfold INT_MAX. lia.
Qed.

(** ** The driver object after [run] *)

(** X4.  After a call of [run] with a valid index, whatever the method value
    and however the reduction ends, the eleven shape members hold the catalog
    entry of that call, read back in the order in which [std::tie] unpacked
    it, and the generator handle is the one the driver had. *)
Theorem run_stores_shape (d : CudnnConvDriver) (w : World) (idx dev : Z)
    (p : ConvProblem) :
  nth_error (gpus_ d) 0 = Some dev ->
  ProblemSet_get (problems_ d) idx = Ok p ->
  shape_members (this (snd (run idx (mkState d w)))) = p
  /\ curand_gen_ (this (snd (run idx (mkState d w)))) = curand_gen_ d.
Proof.
  intros Hdev Hget.
  assert (E : this (snd (run idx (mkState d w))) = with_shape d p).
  { destruct (named_method_dec (method_ d)) as [Hm|Hm].
    - destruct (run_measured d w idx dev p Hm Hdev Hget)
        as (allocs & a & b & c & E & _).
      cbv zeta in E. rewrite E. reflexivity.
    - rewrite (run_unnamed_exec d w idx dev p Hm Hdev Hget). reflexivity. }
  rewrite E.
  destruct p as [[[[[[[[[[pw ph] pc] pn] pk] pr] ps] ppw] pph] pws] phs].
  split; reflexivity.
Qed.

(** The driver object after [run] depends on the driver and the index only. *)
Lemma run_this_spec (d : CudnnConvDriver) (w : World) (idx : Z) :
  this (snd (run idx (mkState d w))) =
  match gpus_ d with
  | [] => d
  | _ :: _ =>
      match ProblemSet_get (problems_ d) idx with
      | Ok p => with_shape d p
      | Raise _ => d
      end
  end.
Proof.
  destruct (gpus_ d) as [|dev rest] eqn:Hg.
  - rewrite run_no_device by exact Hg. reflexivity.
  - assert (Hdev : nth_error (gpus_ d) 0 = Some dev) by (rewrite Hg; reflexivity).
    destruct (ProblemSet_get (problems_ d) idx) as [p|f] eqn:Hget.
    + destruct (named_method_dec (method_ d)) as [Hm|Hm].
      * destruct (run_measured d w idx dev p Hm Hdev Hget)
          as (allocs & a & b & c & E & _).
        cbv zeta in E. rewrite E. reflexivity.
      * rewrite (run_unnamed_exec d w idx dev p Hm Hdev Hget). reflexivity.
    + rewrite (run_lookup_raise d w idx dev f Hdev Hget). reflexivity.
Qed.

Lemma with_shape_idem (d : CudnnConvDriver) (p : ConvProblem) :
  with_shape (with_shape d p) p = with_shape d p.
Proof.
  destruct p as [[[[[[[[[[pw ph] pc] pn] pk] pr] ps] ppw] pph] pws] phs].
  reflexivity.
Qed.

(** X5.  Calling [run] a second time with the same index leaves the whole
    driver object, shape members and generator handle included, exactly as
    the first call left it, however either call ends. *)
Theorem run_twice_same_driver (st : State) (idx : Z) :
  this (snd (run idx (snd (run idx st)))) = this (snd (run idx st)).
Proof.
  destruct st as [d w].
  destruct (snd (run idx (mkState d w))) as [d1 w1] eqn:E1.
  assert (Hd1 : d1 = this (snd (run idx (mkState d w)))) by (rewrite E1; reflexivity).
  rewrite run_this_spec in Hd1. rewrite run_this_spec. cbn [this].
  destruct (gpus_ d) as [|dev rest] eqn:Hg.
  - subst d1. rewrite Hg. reflexivity.
  - destruct (ProblemSet_get (problems_ d) idx) as [p|f] eqn:Hget.
    + pose proof (with_shape_config d p) as Hc. unfold config in Hc.
      assert (Hg1 : gpus_ d1 = gpus_ d) by (subst d1; congruence).
      assert (Hp1 : problems_ d1 = problems_ d) by (subst d1; congruence).
      rewrite Hg1, Hg, Hp1, Hget. subst d1. apply with_shape_idem.
    + subst d1. rewrite Hg, Hget. reflexivity.
Qed.

(** ** Successive calls *)

(** X6.  Two successive measured calls compose: the second reads the clock's
    next two readings after the two the first one read, constructs its own
    engine, with the next identity and from its own catalog entry, and
    appends its events after those of the first call. *)
Theorem run_then_run (d : CudnnConvDriver) (w : World) (idx1 idx2 dev : Z)
    (p1 p2 : ConvProblem) :
  named_method (method_ d) ->
  nth_error (gpus_ d) 0 = Some dev ->
  ProblemSet_get (problems_ d) idx1 = Ok p1 ->
  ProblemSet_get (problems_ d) idx2 = Ok p2 ->
  let st1 := snd (run idx1 (mkState d w)) in
  let second := run idx2 st1 in
  let evs1 := events_since w (world st1) in
  let evs2 := events_since (world st1) (world (snd second)) in
  fst second =
    average_micros (clock w (S (S (clock_reads w))))
                   (clock w (S (S (S (clock_reads w))))) (num_repeats_ d)
  /\ engines_created evs1 = [mkCudnnConv (conv_count w) p1 dev]
  /\ engines_created evs2 = [mkCudnnConv (S (conv_count w)) p2 dev]
  /\ events_since w (world (snd second)) = evs1 ++ evs2.
Proof.
  intros Hm Hdev Hget1 Hget2 st1 second evs1 evs2.
  destruct (run_measured_buffers d w idx1 dev p1 Hm Hdev Hget1)
    as (t1 & t2 & t3 & a & b & c & allocs & E & Hal & Hf1 & Hf2 & Hf3 & _).
  cbv zeta in E.
  pose proof (with_shape_config d p1) as Hc. unfold config in Hc.
  assert (Hm' : named_method (method_ (with_shape d p1))).
  { replace (method_ (with_shape d p1)) with (method_ d) by congruence. exact Hm. }
  assert (Hdev' : nth_error (gpus_ (with_shape d p1)) 0 = Some dev).
  { replace (gpus_ (with_shape d p1)) with (gpus_ d) by congruence. exact Hdev. }
  assert (Hget' : ProblemSet_get (problems_ (with_shape d p1)) idx2 = Ok p2).
  { replace (problems_ (with_shape d p1)) with (problems_ d) by congruence.
    exact Hget2. }
  assert (Hn' : num_repeats_ (with_shape d p1) = num_repeats_ d) by congruence.
  assert (Hg' : curand_gen_ (with_shape d p1) = curand_gen_ d).
  { destruct p1 as [[[[[[[[[[pw ph] pc] pn] pk] pr] ps] ppw] pph] pws] phs].
    reflexivity. }
  subst second evs1 evs2 st1. rewrite E. cbn [snd world].
  match goal with
  | |- context [run idx2 (mkState ?d1 ?w1)] =>
      destruct (run_measured_buffers d1 w1 idx2 dev p2 Hm' Hdev' Hget')
        as (u1 & u2 & u3 & a' & b' & c' & allocs' & E' & Hal' & Hu1 & Hu2 & Hu3 & _)
  end.
  cbv zeta in E'.
  cbn [trace clock clock_reads conv_count gen_count rng_draws] in E', Hu1, Hu2.
  rewrite E'. cbn [fst snd world]. rewrite Hn'.
  split; [reflexivity|].
  erewrite (events_since_app w) by (cbn [trace]; reflexivity).
  erewrite (events_since_app (mkWorld _ _ _ _ _ _ _ _)) by (cbn [trace]; reflexivity).
  erewrite (events_since_app w) by (cbn [trace]; rewrite <- app_assoc; reflexivity).
  rewrite !engines_created_app, !engines_created_submits.
  assert (He1 : engines_created allocs = []).
  { destruct Hal as [-> | ->]; reflexivity. }
  assert (He2 : engines_created allocs' = []).
  { destruct Hal' as [-> | ->]; reflexivity. }
  cbn [engines_created app]. rewrite He1, He2.
  repeat split.
Qed.

(** ** What [run] never does *)

Lemma filter_construction_submits (id : nat) (op : ConvOp) (a b c : Tensor) (k : nat) :
  filter is_construction_call (repeat (EvSubmit id op a b c) k) = [].
Proof. apply filter_repeat_none. reflexivity. Qed.

(** X7.  However a call of [run] ends, it only appends to the record of
    calls, and what it appends contains no device-context initialisation and
    no creation or seeding of a random generator: the generator the
    constructor set up is never replaced or reseeded by [run]. *)
Theorem run_makes_no_construction_call (d : CudnnConvDriver) (w : World) (idx : Z) :
  let st' := snd (run idx (mkState d w)) in
  let evs := events_since w (world st') in
  trace (world st') = trace w ++ evs
  /\ filter is_construction_call evs = []
  /\ gen_count (world st') = gen_count w
  /\ curand_gen_ (this st') = curand_gen_ d.
Proof.
  intros st' evs. subst st' evs.
  destruct (gpus_ d) as [|dev rest] eqn:Hg.
  { rewrite run_no_device by exact Hg. cbn [snd world this].
    rewrite events_since_refl, app_nil_r. repeat split. }
  assert (Hdev : nth_error (gpus_ d) 0 = Some dev) by (rewrite Hg; reflexivity).
  destruct (ProblemSet_get_cases (problems_ d) idx) as [[p Hget]|Hget].
  2:{ rewrite (run_lookup_raise d w idx dev IndexError Hdev Hget).
      cbn [snd world this]. rewrite events_since_refl, app_nil_r. repeat split. }
  assert (Hgen : curand_gen_ (with_shape d p) = curand_gen_ d).
  { destruct p as [[[[[[[[[[pw ph] pc] pn] pk] pr] ps] ppw] pph] pws] phs].
    reflexivity. }
  destruct (named_method_dec (method_ d)) as [Hm|Hm].
  - destruct (run_measured_buffers d w idx dev p Hm Hdev Hget)
      as (t1 & t2 & t3 & a & b & c & allocs & E & Hal & _).
    cbv zeta in E. rewrite E. cbn [snd world this trace gen_count].
    erewrite events_since_app by (cbn [trace]; reflexivity).
    split; [reflexivity|]. split; [|split; [reflexivity | exact Hgen]].
    rewrite !filter_app, filter_construction_submits.
    destruct Hal as [-> | ->]; reflexivity.
  - rewrite (run_unnamed_exec d w idx dev p Hm Hdev Hget).
    cbn [snd world this trace gen_count].
    erewrite events_since_app by (cbn [trace]; reflexivity).
    repeat split. exact Hgen.
Qed.

(** ** Buffers and plans of a measured call *)

(** X8.  In a measured call every submission, the warm-up as well as each
    timed one, addresses the engine of that call with the operation of the
    driver's method, and its three arguments are exactly the three buffers
    the call created: the zero-filled one in the third (result) position, the
    two filled from the driver's generator in the first two. *)
Theorem run_submits_created_buffers (d : CudnnConvDriver) (w : World)
    (idx dev : Z) (p : ConvProblem) :
  named_method (method_ d) ->
  nth_error (gpus_ d) 0 = Some dev ->
  ProblemSet_get (problems_ d) idx = Ok p ->
  let evs := events_since w (world (snd (run idx (mkState d w)))) in
  forall (id : nat) (op : ConvOp) (a b c : Tensor),
    In (EvSubmit id op a b c) evs ->
    id = conv_count w
    /\ op = op_of_method (method_ d)
    /\ generator_of a = Some (curand_gen_ d)
    /\ generator_of b = Some (curand_gen_ d)
    /\ t_fill c = FillZeros
    /\ (forall t : Tensor, In t [a; b; c] <-> In t (tensors_created evs)).
Proof.
  intros Hm Hdev Hget evs id op a b c Hin. subst evs.
  destruct (run_measured_buffers d w idx dev p Hm Hdev Hget)
    as (t1 & t2 & t3 & a0 & b0 & c0 & allocs & E & Hal & Hf1 & Hf2 & Hf3 & Habc).
  cbv zeta in E. rewrite E in Hin |- *. cbn [snd world] in Hin |- *.
  erewrite events_since_app in Hin |- * by (cbn [trace]; reflexivity).
  assert (Hsub : EvSubmit id op a b c
                 = EvSubmit (conv_count w) (op_of_method (method_ d)) a0 b0 c0).
  { apply in_app_or in Hin. destruct Hin as [Hin|Hin].
    { destruct Hin as [Hin|[Hin|[]]]; discriminate Hin. }
    apply in_app_or in Hin. destruct Hin as [Hin|Hin].
    { destruct Hal as [-> | ->];
        destruct Hin as [Hin|[Hin|[Hin|[Hin|[]]]]]; discriminate Hin. }
    apply in_app_or in Hin. destruct Hin as [Hin|Hin].
    { destruct Hin as [Hin|[Hin|[Hin|[]]]];
        [symmetry; exact Hin | discriminate Hin | discriminate Hin]. }
    apply in_app_or in Hin. destruct Hin as [Hin|Hin].
    { apply repeat_spec in Hin. exact Hin. }
    destruct Hin as [Hin|[Hin|[]]]; discriminate Hin. }
  injection Hsub as -> -> -> -> ->.
  rewrite !tensors_created_app, tensors_created_submits.
  assert (Htc : tensors_created allocs = [t1; t2; t3]).
  { destruct Hal as [-> | ->]; reflexivity. }
  cbn [tensors_created app]. rewrite Htc, app_nil_r.
  unfold generator_of.
  destruct Habc as [Habc|Habc]; injection Habc as -> -> ->;
    rewrite ?Hf1, ?Hf2, ?Hf3; repeat split; trivial;
    cbn [In]; intros Ht; tauto.
Qed.

Lemma plan_inits_app (l1 l2 : list Event) :
  plan_inits (l1 ++ l2) = plan_inits l1 ++ plan_inits l2.
Proof.
  induction l1 as [|e l1 IH]; simpl; [reflexivity|].
  destruct e; simpl; rewrite IH; reflexivity.
Qed.

Lemma plan_inits_submits (id : nat) (op : ConvOp) (a b c : Tensor) (k : nat) :
  plan_inits (repeat (EvSubmit id op a b c) k) = [].
Proof. induction k; simpl; auto. Qed.

(** X9.  In a measured call the engine is constructed first and its plan is
    initialised next, before any buffer exists; the plan is initialised
    exactly once in the call, and it is the plan of the operation that is
    submitted afterwards. *)
Theorem run_initialises_submitted_plan (d : CudnnConvDriver) (w : World)
    (idx dev : Z) (p : ConvProblem) :
  named_method (method_ d) ->
  nth_error (gpus_ d) 0 = Some dev ->
  ProblemSet_get (problems_ d) idx = Ok p ->
  let evs := events_since w (world (snd (run idx (mkState d w)))) in
  let id := conv_count w in
  exists (op : ConvOp) (rest : list Event),
    evs = EvConvCreate (mkCudnnConv id p dev) :: EvConvInit id op :: rest
    /\ plan_inits evs = [(id, op)]
    /\ (forall id' op' a b c, In (EvSubmit id' op' a b c) rest -> op' = op)
    /\ (method_ d = FORWARD -> op = OpForward)
    /\ (method_ d = BACKWARD_DATA -> op = OpBackwardData)
    /\ (method_ d = BACKWARD_FILTER -> op = OpBackwardFilter).
Proof.
  intros Hm Hdev Hget evs id. subst evs id.
  destruct (run_measured_buffers d w idx dev p Hm Hdev Hget)
    as (t1 & t2 & t3 & a0 & b0 & c0 & allocs & E & Hal & _).
  cbv zeta in E. rewrite E. cbn [snd world].
  erewrite events_since_app by (cbn [trace]; reflexivity).
  exists (op_of_method (method_ d)). eexists.
  split; [cbn [app]; reflexivity|].
  split.
  { rewrite !plan_inits_app, plan_inits_submits.
    destruct Hal as [-> | ->]; reflexivity. }
  split.
  { intros id' op' a b c Hin.
    apply in_app_or in Hin. destruct Hin as [Hin|Hin].
    { destruct Hal as [-> | ->];
        destruct Hin as [Hin|[Hin|[Hin|[Hin|[]]]]]; discriminate Hin. }
    destruct Hin as [Hin|[Hin|[Hin|Hin]]]; try discriminate Hin.
    { injection Hin as _ <- _ _ _. reflexivity. }
    apply in_app_or in Hin. destruct Hin as [Hin|Hin].
    { apply repeat_spec in Hin. injection Hin as _ -> _ _ _. reflexivity. }
    destruct Hin as [Hin|[Hin|[]]]; discriminate Hin. }
  repeat split; intros ->; reflexivity.
Qed.

(** ** Construction followed by a call *)

(** X10.  Construction followed by a measured call, when the generator was
    created: the constructor has seeded the generator with 42 and has not
    read the clock, so the first call reads the clock's first two readings,
    and it fills its two random buffers from the very generator that was
    seeded. *)
Theorem construct_then_run (method : CudnnConvMethod)
    (problems : CudnnConvProblemSet) (numRuns : Z) (gpus : list Z)
    (mem : ConvProblem) (w : World) (idx dev : Z) (p : ConvProblem) :
  curandCreate_status w = CURAND_STATUS_SUCCESS ->
  named_method method ->
  nth_error gpus 0 = Some dev ->
  ProblemSet_get problems idx = Ok p ->
  exists (d : CudnnConvDriver) (w1 : World),
    new_CudnnConvDriver method problems numRuns gpus mem w = (Ok d, w1)
    /\ let result := run idx (mkState d w1) in
       let evs := events_since w1 (world (snd result)) in
       let g := gen_handle (gen_count w) in
       In (EvCurandSeed g 42) (events_since w w1)
       /\ fst result =
            average_micros (clock w (clock_reads w))
                           (clock w (S (clock_reads w))) numRuns
       /\ map generator_of (filter (fun t => negb (is_zero_filled t))
                                   (tensors_created evs)) = [Some g; Some g].
Proof.
  intros Hs Hm Hdev Hget.
  destruct (new_CudnnConvDriver_created method problems numRuns gpus mem w Hs)
    as (d & Enew & Hc & Hg).
  set (w1 := mkWorld _ _ _ _ _ _ _ _) in Enew.
  assert (Htr : trace w1 = trace w ++ [ EvCudaFree (cudaFree_status w);
                                       EvCurandCreate (curandCreate_status w);
                                       EvCurandSeed (gen_handle (gen_count w)) 42 ])
    by reflexivity.
  assert (Hck : clock w1 = clock w) by reflexivity.
  assert (Hcr : clock_reads w1 = clock_reads w) by reflexivity.
  assert (Hrd : rng_draws w1 = rng_draws w) by reflexivity.
  clearbody w1. unfold config in Hc.
  assert (Hmd : method_ d = method) by congruence.
  assert (Hnd : num_repeats_ d = numRuns) by congruence.
  assert (Hgd : gpus_ d = gpus) by congruence.
  assert (Hpd : problems_ d = problems) by congruence.
  exists d, w1. split; [exact Enew|].
  rewrite <- Hmd in Hm. rewrite <- Hgd in Hdev. rewrite <- Hpd in Hget.
  destruct (run_measured_buffers d w1 idx dev p Hm Hdev Hget)
    as (t1 & t2 & t3 & a & b & c & allocs & E & Hal & Hf1 & Hf2 & Hf3 & _).
  cbv zeta in E. cbv zeta. rewrite E. cbn [fst snd world].
  erewrite (events_since_app w1) by (cbn [trace]; reflexivity).
  rewrite (events_since_app w w1 _ Htr).
  rewrite Hck, Hcr, Hnd.
  split; [cbn [In]; tauto|]. split; [reflexivity|].
  rewrite !tensors_created_app, tensors_created_submits.
  assert (Htc : tensors_created allocs = [t1; t2; t3]).
  { destruct Hal as [-> | ->]; reflexivity. }
  cbn [tensors_created app]. rewrite Htc, app_nil_r.
  rewrite Hg, Hrd in Hf1, Hf2.
  destruct t1 as [dims1 fill1], t2 as [dims2 fill2], t3 as [dims3 fill3].
  cbn [t_fill] in Hf1, Hf2, Hf3. subst fill1 fill2 fill3. reflexivity.
Qed.

(** ** The reduction at its edges *)

Lemma average_micros_zero_elapsed (t n : Z) :
  1 <= n -> average_micros t t n = Ok 0.
Proof.
  intros Hn.
  rewrite average_micros_eq by (rewrite ?Z.sub_diag; unfold INT64_MIN, INT64_MAX; lia).
  rewrite Z.sub_diag.
  assert (Hz : duration_micros 0 = S754_zero false) by (vm_compute; reflexivity).
  rewrite Hz.
  pose proof (of_Z_positive n Hn) as Hp.
  destruct (Double.of_Z n) as [s|[|]| |[|] m e]; simpl in Hp; try discriminate;
    reflexivity.
Qed.

(** X11.  When the two timestamps coincide (the clock did not advance
    between the captures), [run] returns 0 for every repeat count of at least
    one, whatever the method value. *)
Theorem run_zero_elapsed (d : CudnnConvDriver) (w : World) (idx dev : Z)
    (p : ConvProblem) :
  1 <= num_repeats_ d ->
  nth_error (gpus_ d) 0 = Some dev ->
  ProblemSet_get (problems_ d) idx = Ok p ->
  clock w (S (clock_reads w)) = clock w (clock_reads w) ->
  fst (run idx (mkState d w)) = Ok 0.
Proof.
  intros Hn Hdev Hget Hclk.
  destruct (named_method_dec (method_ d)) as [Hm|Hm].
  - destruct (run_measured d w idx dev p Hm Hdev Hget)
      as (allocs & a & b & c & E & _).
    cbv zeta in E. rewrite E. cbn [fst]. rewrite Hclk.
    apply average_micros_zero_elapsed, Hn.
  - rewrite (run_unnamed_exec d w idx dev p Hm Hdev Hget). reflexivity.
Qed.

End Extras.

(** ** The claims at concrete inputs *)

#[local] Existing Instance Scenario.engine.

(** C1 at the specification's scenario: FORWARD, catalog entry 0, ten
    repeats. *)
Lemma run_timing_protocol_witness :
  let d := Scenario.driver FORWARD 10 [0] in
  let w := Scenario.world0 1000 5001000 in
  let evs := events_since w (world (snd (run 0 (mkState d w)))) in
  exists (setup : list Event) (a b c : Tensor),
    let sub := EvSubmit (conv_count w) (op_of_method (method_ d)) a b c in
    let protocol :=
      [sub; EvDeviceSynchronize; EvClockNow (clock w (clock_reads w))]
      ++ repeat sub (Z.to_nat (num_repeats_ d))
      ++ [EvDeviceSynchronize; EvClockNow (clock w (S (clock_reads w)))] in
    evs = setup ++ protocol
    /\ timing_events setup = []
    /\ timing_events evs = protocol
    /\ Z.of_nat (length (filter is_submit evs)) = 1 + num_repeats_ d
    /\ barriers evs = 2%nat.
Proof.
  apply (run_timing_protocol (Scenario.driver FORWARD 10 [0])
           (Scenario.world0 1000 5001000) 0 0 Scenario.problem0).
  - left. reflexivity.
  - simpl. lia.
  - reflexivity.
  - reflexivity.
Defined.

(** C2 as stated fails.  With one repeat and [2^31] microseconds between the
    two timestamps the truncated average is 2147483648, which is not the
    integer [run] returns: the conversion to [int] is undefined there.  With
    4195 repeats and 9007199258419999 ns between the timestamps, which is
    3679007 ns more than [2^53] ns, the truncated average is 2147127355 and
    [run] returns 2147127356: the nanosecond count is rounded when it is
    converted to [double]. *)
Lemma run_truncated_average_not_returned :
  let st1 := Scenario.start FORWARD 1 [0] 0 2147483648000 in
  let st2 := Scenario.start FORWARD 4195 [0] 0 9007199258419999 in
  (1 <= num_repeats_ (this st1)
   /\ (clock (world st1) 1 - clock (world st1) 0) / (1000 * num_repeats_ (this st1))
      = 2147483648
   /\ fst (run 0 st1) = Raise UB_float_to_int
   /\ fst (run 0 st1) <> Ok 2147483648)
  /\ (1 <= num_repeats_ (this st2)
      /\ clock (world st2) 1 - clock (world st2) 0 = 2 ^ 53 + 3679007
      /\ (clock (world st2) 1 - clock (world st2) 0) / (1000 * num_repeats_ (this st2))
         = 2147127355
      /\ fst (run 0 st2) = Ok 2147127356).
Proof.
  assert (E1 : fst (run 0 (Scenario.start FORWARD 1 [0] 0 2147483648000))
               = Raise UB_float_to_int) by (vm_compute; reflexivity).
  assert (E2 : fst (run 0 (Scenario.start FORWARD 4195 [0] 0 9007199258419999))
               = Ok 2147127356) by (vm_compute; reflexivity).
  cbv zeta. rewrite E1, E2.
  split.
  - split; [simpl; lia|]. split; [reflexivity|]. split; [reflexivity|discriminate].
  - split; [simpl; lia|]. split; [reflexivity|]. split; reflexivity.
Qed.

(** C2, amended, at the specification's scenario: five milliseconds over ten
    repeats. *)
Lemma run_returns_truncated_average_witness :
  let d := Scenario.driver FORWARD 10 [0] in
  let w := Scenario.world0 1000 5001000 in
  let result := run 0 (mkState d w) in
  let start := clock w (clock_reads w) in
  let stop := clock w (S (clock_reads w)) in
  timestamps (events_since w (world (snd result))) = [start; stop]
  /\ fst result = Ok ((stop - start) / (1000 * num_repeats_ d)).
Proof.
  apply (run_returns_truncated_average (Scenario.driver FORWARD 10 [0])
           (Scenario.world0 1000 5001000) 0 0 Scenario.problem0).
  - left. reflexivity.
  - simpl. unfold INT_MAX. lia.
  - reflexivity.
  - reflexivity.
  - simpl. lia.
  - vm_compute. discriminate.
Defined.

Example run_forward_five_milliseconds :
  fst (run 0 (Scenario.start FORWARD 10 [0] 1000 5001000)) = Ok 500.
Proof. vm_compute. reflexivity. Qed.

Example run_backward_data_truncates :
  fst (run 3 (Scenario.start BACKWARD_DATA 3 [1; 0] 1000 12346789)) = Ok 4115.
Proof. vm_compute. reflexivity. Qed.

(** C3 at the specification's scenario: a catalog of five entries, index 7. *)
Lemma run_index_out_of_range_witness :
  let d := Scenario.driver FORWARD 10 [0] in
  let w := Scenario.world0 0 0 in
  let result := run 7 (mkState d w) in
  fst result = Raise IndexError
  /\ snd result = mkState d w
  /\ engines_created (events_since w (world (snd result))) = []
  /\ tensors_created (events_since w (world (snd result))) = [].
Proof.
  apply (run_index_out_of_range (Scenario.driver FORWARD 10 [0])
           (Scenario.world0 0 0) 7).
  - simpl. discriminate.
  - right. simpl. lia.
Defined.

(** C5 at the specification's scenario, for the backward-filter method. *)
Lemma run_allocates_three_buffers_witness :
  let d := Scenario.driver BACKWARD_FILTER 10 [0] in
  let w := Scenario.world0 1000 5001000 in
  tensors_created (events_since w (world (snd (run 0 (mkState d w))))) =
    [ mkTensor [5; 5; 3; 1] (FillRandom (gen_handle 0) 0);
      mkTensor [3; 3; 2; 1] (FillRandom (gen_handle 0) 1);
      mkTensor [3; 3; 3; 2] FillZeros ].
Proof.
  refine (proj1 (proj2 (proj2
    (run_allocates_three_buffers (Scenario.driver BACKWARD_FILTER 10 [0])
       (Scenario.world0 1000 5001000) 0 0 5 5 3 1 2 3 3 0 0 1 1 _ _))) _);
    reflexivity.
Defined.

(** C6 at the specification's scenario. *)
Lemma run_constructs_one_engine_witness :
  let d := Scenario.driver FORWARD 10 [3; 0] in
  let w := Scenario.world0 1000 5001000 in
  let w' := world (snd (run 0 (mkState d w))) in
  exists (p : ConvProblem) (dev : Z),
    ProblemSet_get (problems_ d) 0 = Ok p
    /\ nth_error (gpus_ d) 0 = Some dev
    /\ engines_created (events_since w w') = [mkCudnnConv (conv_count w) p dev]
    /\ uses_only_engine (conv_count w) (events_since w w') = true
    /\ conv_count w' = S (conv_count w).
Proof.
  apply (run_constructs_one_engine (Scenario.driver FORWARD 10 [3; 0])
           (Scenario.world0 1000 5001000) 0 500).
  vm_compute. reflexivity.
Defined.

(** C9 for the method value 7. *)
Lemma run_unnamed_method_witness :
  let d := Scenario.driver 7 10 [0] in
  let w := Scenario.world0 1000 5001000 in
  fst (run 2 (mkState d w)) = Ok 0
  /\ events_since w (world (snd (run 2 (mkState d w)))) =
       [EvConvCreate (mkCudnnConv 0 (112, 112, 64, 8, 128, 3, 3, 1, 1, 1, 1) 0)].
Proof.
  apply (run_unnamed_method (Scenario.driver 7 10 [0])
           (Scenario.world0 1000 5001000) 2 0
           (112, 112, 64, 8, 128, 3, 3, 1, 1, 1, 1)).
  - unfold named_method. simpl. intros [E|[E|E]]; discriminate E.
  - reflexivity.
  - reflexivity.
Defined.



(** C8 as stated fails.  With one repeat and [2^31] microseconds between the
    two timestamps every hypothesis of the claim holds, the average is
    [2^31], which no [int] holds, and [run] returns no non-negative integer.
    With 4195 repeats and one nanosecond less than [4195 * 2^31]
    microseconds between the timestamps, an elapsed time above [2^53] ns,
    the truncated average is [2^31 - 1], yet the quotient computed in
    [double] is [2^31] and [run] returns no integer either. *)
Lemma run_average_exceeds_int :
  let st := Scenario.start FORWARD 1 [0] 0 2147483648000 in
  let st' := Scenario.start FORWARD 4195 [0] 0 9008693903359999 in
  (ProblemSet_get (problems_ (this st)) 0 = Ok Scenario.problem0
   /\ 1 <= num_repeats_ (this st)
   /\ clock (world st) 0 <= clock (world st) 1
   /\ fst (run 0 st) = Raise UB_float_to_int
   /\ ~ (exists v : Z, fst (run 0 st) = Ok v /\ 0 <= v))
  /\ (ProblemSet_get (problems_ (this st')) 0 = Ok Scenario.problem0
      /\ 1 <= num_repeats_ (this st')
      /\ clock (world st') 0 <= clock (world st') 1
      /\ (clock (world st') 1 - clock (world st') 0)
           / (1000 * num_repeats_ (this st')) = INT_MAX
      /\ fst (run 0 st') = Raise UB_float_to_int
      /\ ~ (exists v : Z, fst (run 0 st') = Ok v /\ 0 <= v)).
Proof.
  assert (E : fst (run 0 (Scenario.start FORWARD 1 [0] 0 2147483648000))
              = Raise UB_float_to_int) by (vm_compute; reflexivity).
  assert (E' : fst (run 0 (Scenario.start FORWARD 4195 [0] 0 9008693903359999))
               = Raise UB_float_to_int) by (vm_compute; reflexivity).
  cbv zeta. rewrite E, E'. split.
  - split; [reflexivity|]. split; [simpl; lia|]. split; [simpl; lia|].
    split; [reflexivity|]. intros [v [Hv _]]. discriminate Hv.
  - split; [reflexivity|]. split; [simpl; lia|]. split; [simpl; lia|].
    split; [reflexivity|]. split; [reflexivity|].
    intros [v [Hv _]]. discriminate Hv.
Qed.

(** C8, amended, at the specification's scenario. *)
Lemma run_returns_nonnegative_witness :
  exists v : Z,
    fst (run 0 (mkState (Scenario.driver FORWARD 10 [0])
                        (Scenario.world0 1000 5001000))) = Ok v
    /\ 0 <= v.
Proof.
  apply (run_returns_nonnegative (Scenario.driver FORWARD 10 [0])
           (Scenario.world0 1000 5001000) 0 0 Scenario.problem0).
  - simpl. unfold INT_MAX. lia.
  - reflexivity.
  - reflexivity.
  - simpl. lia.
  - simpl. lia.
  - vm_compute. discriminate.
Defined.



(** A successful construction leads to the scenario's starting state. *)
Example new_CudnnConvDriver_scenario :
  new_CudnnConvDriver FORWARD Scenario.catalog 10 [0] Scenario.mem0
    (Scenario.boot 1000 5001000 cudaSuccess CURAND_STATUS_SUCCESS)
  = (Ok (Scenario.driver FORWARD 10 [0]), Scenario.world0 1000 5001000).
Proof. reflexivity. Qed.

(** ** The further properties at concrete inputs *)

(** X2 at the scenario with a repeat count of zero: five milliseconds
    divided by [0.0] are plus infinity. *)
Lemma run_zero_repeats_witness :
  let d := Scenario.driver FORWARD 0 [0] in
  let w := Scenario.world0 1000 5001000 in
  let evs := events_since w (world (snd (run 0 (mkState d w)))) in
  length (filter is_submit evs) = 1%nat
  /\ timestamps evs = [1000; 5001000]
  /\ Double.div (Double.div (Double.of_Z (5001000 - 1000)) (Double.of_Z 1000))
                (Double.of_Z 0) = S754_infinity false.
Proof.
  cbv zeta.
  pose proof (run_zero_repeats (Scenario.driver FORWARD 0 [0])
                (Scenario.world0 1000 5001000) 0 0 Scenario.problem0) as Hz.
  cbv zeta in Hz.
  destruct Hz as (_ & Hz).
  - left. reflexivity.
  - reflexivity.
  - reflexivity.
  - simpl. unfold INT64_MIN, INT64_MAX. lia.
  - destruct (Hz eq_refl) as (H1 & _ & H3 & _ & H5 & _).
    split; [exact H1|]. split; [exact H3|]. apply H5. simpl. lia.
Defined.

(** X3 at the scenario with a repeat count of -2: five milliseconds give
    -2500. *)
Lemma run_negative_repeats_witness :
  fst (run 0 (mkState (Scenario.driver BACKWARD_DATA (-2) [0])
                      (Scenario.world0 1000 5001000)))
  = Ok (-2500).
Proof.
  refine (proj2 (proj2
    (run_negative_repeats (Scenario.driver BACKWARD_DATA (-2) [0])
       (Scenario.world0 1000 5001000) 0 0 Scenario.problem0 _ _ _ _ _ _))
    (-2500) _ _).
  - right. left. reflexivity.
  - reflexivity.
  - reflexivity.
  - simpl. lia.
  - simpl. lia.
  - simpl. unfold INT64_MAX. lia.
  - vm_compute. reflexivity.
  - unfold INT_MIN. lia.
Defined.

(** X4 at the scenario, for catalog entry 2 and an unnamed method value. *)
Lemma run_stores_shape_witness :
  let d := Scenario.driver 9 10 [0] in
  let w := Scenario.world0 1000 5001000 in
  shape_members (this (snd (run 2 (mkState d w))))
    = (112, 112, 64, 8, 128, 3, 3, 1, 1, 1, 1)
  /\ curand_gen_ (this (snd (run 2 (mkState d w)))) = curand_gen_ d.
Proof.
  apply (run_stores_shape (Scenario.driver 9 10 [0])
           (Scenario.world0 1000 5001000) 2 0
           (112, 112, 64, 8, 128, 3, 3, 1, 1, 1, 1)); reflexivity.
Defined.

(** X6 at the scenario: entry 0, then entry 4. *)
Lemma run_then_run_witness :
  let d := Scenario.driver BACKWARD_FILTER 3 [0] in
  let w := Scenario.world0 1000 5001000 in
  let st1 := snd (run 0 (mkState d w)) in
  let second := run 4 st1 in
  let evs1 := events_since w (world st1) in
  let evs2 := events_since (world st1) (world (snd second)) in
  fst second =
    average_micros (clock w (S (S (clock_reads w))))
                   (clock w (S (S (S (clock_reads w))))) (num_repeats_ d)
  /\ engines_created evs1 = [mkCudnnConv (conv_count w) Scenario.problem0 0]
  /\ engines_created evs2
     = [mkCudnnConv (S (conv_count w)) (7, 7, 512, 16, 512, 3, 3, 1, 1, 1, 1) 0]
  /\ events_since w (world (snd second)) = evs1 ++ evs2.
Proof.
  apply (run_then_run (Scenario.driver BACKWARD_FILTER 3 [0])
           (Scenario.world0 1000 5001000) 0 4 0 Scenario.problem0
           (7, 7, 512, 16, 512, 3, 3, 1, 1, 1, 1)).
  - right. right. reflexivity.
  - reflexivity.
  - reflexivity.
  - reflexivity.
Defined.

(** X8 at the scenario, for the forward submission. *)
Lemma run_submits_created_buffers_witness :
  let d := Scenario.driver FORWARD 2 [0] in
  let w := Scenario.world0 1000 5001000 in
  let evs := events_since w (world (snd (run 0 (mkState d w)))) in
  let input := mkTensor [5; 5; 3; 1] (FillRandom (gen_handle 0) 1) in
  let filter := mkTensor [3; 3; 3; 2] (FillRandom (gen_handle 0) 0) in
  let output := mkTensor [3; 3; 2; 1] FillZeros in
  0%nat = conv_count w
  /\ OpForward = op_of_method (method_ d)
  /\ generator_of input = Some (curand_gen_ d)
  /\ generator_of filter = Some (curand_gen_ d)
  /\ t_fill output = FillZeros
  /\ (forall t : Tensor, In t [input; filter; output] <-> In t (tensors_created evs)).
Proof.
  apply (run_submits_created_buffers (Scenario.driver FORWARD 2 [0])
           (Scenario.world0 1000 5001000) 0 0 Scenario.problem0).
  - left. reflexivity.
  - reflexivity.
  - reflexivity.
  - vm_compute. tauto.
Defined.

(** X9 at the scenario, for the backward-data method. *)
Lemma run_initialises_submitted_plan_witness :
  let d := Scenario.driver BACKWARD_DATA 2 [0] in
  let w := Scenario.world0 1000 5001000 in
  let evs := events_since w (world (snd (run 0 (mkState d w)))) in
  let id := conv_count w in
  exists (op : ConvOp) (rest : list Event),
    evs = EvConvCreate (mkCudnnConv id Scenario.problem0 0) :: EvConvInit id op :: rest
    /\ plan_inits evs = [(id, op)]
    /\ (forall id' op' a b c, In (EvSubmit id' op' a b c) rest -> op' = op)
    /\ (method_ d = FORWARD -> op = OpForward)
    /\ (method_ d = BACKWARD_DATA -> op = OpBackwardData)
    /\ (method_ d = BACKWARD_FILTER -> op = OpBackwardFilter).
Proof.
  apply (run_initialises_submitted_plan (Scenario.driver BACKWARD_DATA 2 [0])
           (Scenario.world0 1000 5001000) 0 0 Scenario.problem0).
  - right. left. reflexivity.
  - reflexivity.
  - reflexivity.
Defined.

(** X10 from a freshly booted world with healthy statuses. *)
Lemma construct_then_run_witness :
  let w := Scenario.boot 1000 5001000 cudaSuccess CURAND_STATUS_SUCCESS in
  exists (d : CudnnConvDriver) (w1 : World),
    new_CudnnConvDriver FORWARD Scenario.catalog 10 [0] Scenario.mem0 w = (Ok d, w1)
    /\ let result := run 0 (mkState d w1) in
       let evs := events_since w1 (world (snd result)) in
       let g := gen_handle (gen_count w) in
       In (EvCurandSeed g 42) (events_since w w1)
       /\ fst result =
            average_micros (clock w (clock_reads w))
                           (clock w (S (clock_reads w))) 10
       /\ map generator_of (filter (fun t => negb (is_zero_filled t))
                                   (tensors_created evs)) = [Some g; Some g].
Proof.
  apply (construct_then_run FORWARD Scenario.catalog 10 [0] Scenario.mem0
           (Scenario.boot 1000 5001000 cudaSuccess CURAND_STATUS_SUCCESS)
           0 0 Scenario.problem0).
  - reflexivity.
  - left. reflexivity.
  - reflexivity.
  - reflexivity.
Defined.

(** X11 at the scenario with a clock that does not advance. *)
Lemma run_zero_elapsed_witness :
  fst (run 1 (mkState (Scenario.driver BACKWARD_FILTER 10 [0])
                      (Scenario.world0 7000 7000))) = Ok 0.
Proof.
  apply (run_zero_elapsed (Scenario.driver BACKWARD_FILTER 10 [0])
           (Scenario.world0 7000 7000) 1 0
           (700, 161, 1, 4, 32, 5, 20, 0, 0, 2, 2)).
  - simpl. lia.
  - reflexivity.
  - reflexivity.
  - reflexivity.
Defined.
